(** * Book_Catalog_REST: the booking lifecycle and its conflict engine

    A shallow embedding of
      - [app/models/booking.py]        (the [booking] table row),
      - [app/schemas/booking.py]       (the request payloads),
      - [app/crud/crud_booking.py]     ([CRUDBooking]),
      - [app/tasks/booking_tasks.py]   (the expiry sweeper),
      - [app/api/v1/endpoints/booking.py] (the HTTP endpoints),
    followed by the properties of the booking engine.

    Conventions of the embedding.
      - A naive [datetime] is an integer number of microseconds; only the
        order and [+ timedelta] are used by the code.
      - [datetime.utcnow()] is an explicit argument [utcnow].
      - An [AsyncSession] is the committed database, the view of the open
        transaction, and a plan telling which of the coming storage round
        trips ([execute], [commit], [refresh]) fails with a
        [SQLAlchemyError].  Every request (and every sweep) opens a session
        of its own on the committed database.
      - [Optional[bool]] for [active]: the explicit null is not modelled;
        [active] is a [bool], and the presence bit of the update payload
        (pydantic's fields-set) is kept next to it. *)

From Stdlib Require Import ZArith List String Bool Lia DecimalString.
Import ListNotations.
Open Scope Z_scope.
#[local] Arguments String.append : simpl never.

(** ** Instants *)

Definition datetime := Z.

(** [timedelta(hours=h)], in microseconds. *)
Definition timedelta (hours : Z) : Z := hours * 3600 * 1000000.

(** [bool(d)] for a [datetime] object: always true. *)
Definition datetime_bool (_ : datetime) : bool := true.

(** [a or b] on [datetime] values. *)
Definition datetime_or (a b : datetime) : datetime :=
  if datetime_bool a then a else b.

(** ** app/models/booking.py *)

Inductive Field :=
| F_id | F_book_id | F_user_id | F_start_time | F_end_time | F_active.

Inductive Value :=
| VInt (z : Z)
| VDatetime (t : datetime)
| VBool (b : bool).

(** One [(field, value)] item of a payload dictionary. *)
Inductive Item :=
| Set_book_id (z : Z)
| Set_user_id (z : Z)
| Set_start_time (t : datetime)
| Set_end_time (t : datetime)
| Set_active (b : bool).

Definition item_field (it : Item) : Field :=
  match it with
  | Set_book_id _ => F_book_id
  | Set_user_id _ => F_user_id
  | Set_start_time _ => F_start_time
  | Set_end_time _ => F_end_time
  | Set_active _ => F_active
  end.

Definition item_value (it : Item) : Value :=
  match it with
  | Set_book_id z => VInt z
  | Set_user_id z => VInt z
  | Set_start_time t => VDatetime t
  | Set_end_time t => VDatetime t
  | Set_active b => VBool b
  end.

Module Booking.

Record t := mk {
  id : Z;
  book_id : Z;
  user_id : Z;
  start_time : datetime;
  end_time : datetime;
  active : bool
}.

Definition getattr (b : t) (f : Field) : Value :=
  match f with
  | F_id => VInt (id b)
  | F_book_id => VInt (book_id b)
  | F_user_id => VInt (user_id b)
  | F_start_time => VDatetime (start_time b)
  | F_end_time => VDatetime (end_time b)
  | F_active => VBool (active b)
  end.

Definition setattr (b : t) (it : Item) : t :=
  match it with
  | Set_book_id z => mk (id b) z (user_id b) (start_time b) (end_time b) (active b)
  | Set_user_id z => mk (id b) (book_id b) z (start_time b) (end_time b) (active b)
  | Set_start_time x => mk (id b) (book_id b) (user_id b) x (end_time b) (active b)
  | Set_end_time x => mk (id b) (book_id b) (user_id b) (start_time b) x (active b)
  | Set_active x => mk (id b) (book_id b) (user_id b) (start_time b) (end_time b) x
  end.

End Booking.

(** ** app/schemas/booking.py *)

Module BookingCreate.

(** [active] defaults to [True] when the request leaves it out; the
    record holds the value after defaulting. *)
Record t := mk {
  book_id : Z;
  user_id : Z;
  start_time : datetime;
  end_time : datetime;
  active : bool
}.

End BookingCreate.

Module BookingUpdate.

(** The four fields of [BookingBase] without a default are required, so
    they are always set; [active] may be left out, and [active_set] records
    whether the request supplied it. *)
Record t := mk {
  book_id : Z;
  user_id : Z;
  start_time : datetime;
  end_time : datetime;
  active : bool;
  active_set : bool
}.

(** [obj_in.dict(exclude_unset=True).items()] *)
Definition dict_exclude_unset (obj_in : t) : list Item :=
  [Set_book_id (book_id obj_in); Set_user_id (user_id obj_in);
   Set_start_time (start_time obj_in); Set_end_time (end_time obj_in)]
  ++ (if active_set obj_in then [Set_active (active obj_in)] else []).

End BookingUpdate.

(** ** The database *)

Record Database := mkDatabase {
  booking_table : list Booking.t;   (* rows in insertion order *)
  book_table : list Z;              (* primary keys of [book] *)
  user_table : list Z;              (* primary keys of [user] *)
  booking_id_seq : Z                (* next value of the [booking.id] serial *)
}.

Definition with_bookings (d : Database) (rows : list Booking.t) : Database :=
  mkDatabase rows (book_table d) (user_table d) (booking_id_seq d).

(** ** Exceptions *)

Inductive PyExc :=
| ValueError (msg : string)
| SQLAlchemyError (msg : string)
| Exception (msg : string)
| HTTPException (status_code : Z) (detail : string).

Definition decimal (z : Z) : string := NilEmpty.string_of_int (Z.to_int z).

(** [str(e)]; for [HTTPException] this is Starlette's
    ["{status_code}: {detail}"]. *)
Definition str (e : PyExc) : string :=
  match e with
  | ValueError msg => msg
  | SQLAlchemyError msg => msg
  | Exception msg => msg
  | HTTPException code detail => (decimal code ++ ": " ++ detail)%string
  end.

(** ** Sessions and the monad of coroutines over a session *)

Record AsyncSession := mkSession {
  stored : Database;               (* what is committed *)
  view : Database;                 (* committed rows plus the pending changes *)
  faults : list (option string)    (* outcome of the coming round trips:
                                      [Some msg] fails with that message *)
}.

Inductive Outcome (A : Type) :=
| Return (a : A)
| Raise (e : PyExc).
Arguments Return {A} a.
Arguments Raise {A} e.

Definition Async (A : Type) : Type := AsyncSession -> Outcome A * AsyncSession.

Definition ret {A} (a : A) : Async A := fun s => (Return a, s).

Definition raise {A} (e : PyExc) : Async A := fun s => (Raise e, s).

Definition bind {A B} (m : Async A) (k : A -> Async B) : Async B :=
  fun s =>
    match m s with
    | (Return a, s') => k a s'
    | (Raise e, s') => (Raise e, s')
    end.

(** [try: body  except ... as e: handler e] *)
Definition try_except {A} (body : Async A) (handler : PyExc -> Async A) : Async A :=
  fun s =>
    match body s with
    | (Return a, s') => (Return a, s')
    | (Raise e, s') => handler e s'
    end.

Declare Scope async_scope.
Delimit Scope async_scope with async.
Notation "x <- m ;; k" := (bind m (fun x => k))
  (at level 100, m at next level, right associativity) : async_scope.
Notation "m ;; k" := (bind m (fun _ => k))
  (at level 100, right associativity) : async_scope.
Open Scope async_scope.

(** One round trip to the storage layer: it consumes the head of the plan. *)
Definition round_trip : Async unit :=
  fun s =>
    let s' := mkSession (stored s) (view s) (tl (faults s)) in
    match hd None (faults s) with
    | Some msg => (Raise (SQLAlchemyError msg), s')
    | None => (Return tt, s')
    end.

(** [await db.execute(query)], the query read as a function of the rows the
    transaction sees. *)
Definition execute {A} (query : Database -> A) : Async A :=
  round_trip ;; fun s => (Return (query (view s)), s).

Definition modify_view (f : Database -> Database) : Async unit :=
  fun s => (Return tt, mkSession (stored s) (f (view s)) (faults s)).

(** [db.add(Booking(...))]: the row is pending, and receives the next value
    of the serial as its primary key. *)
Definition add (row : Z -> Booking.t) : Async Z :=
  fun s =>
    let pk := booking_id_seq (view s) in
    (Return pk,
     mkSession (stored s)
       (mkDatabase (booking_table (view s) ++ [row pk]) (book_table (view s))
          (user_table (view s)) (pk + 1))
       (faults s)).

(** [setattr(db_obj, field, value)] on the mapped object whose primary key is
    [pk]: flushed as [UPDATE booking SET ... WHERE id = pk]. *)
Definition setattr (pk : Z) (it : Item) : Async unit :=
  modify_view (fun d =>
    with_bookings d
      (map (fun b => if Booking.id b =? pk then Booking.setattr b it else b)
         (booking_table d))).

(** [await db.delete(db_obj)]: the row is marked for deletion in the session;
    the [DELETE] itself is sent by the commit. *)
Definition delete (pk : Z) : Async unit :=
  modify_view (fun d =>
    with_bookings d (filter (fun b => negb (Booking.id b =? pk)) (booking_table d))).

(** [await db.commit()]: all pending changes become the stored state, or
    none does. *)
Definition commit : Async unit :=
  round_trip ;; fun s => (Return tt, mkSession (view s) (view s) (faults s)).

(** [await db.rollback()]: the pending changes are dropped.  It is not taken
    as a point of failure. *)
Definition rollback : Async unit :=
  fun s => (Return tt, mkSession (stored s) (stored s) (faults s)).

Definition by_id (pk : Z) (b : Booking.t) : bool := Booking.id b =? pk.

(** [await db.refresh(db_obj)]: reloads the row by primary key. *)
Definition refresh (pk : Z) : Async Booking.t :=
  row <- execute (fun d => find (by_id pk) (booking_table d)) ;;
  match row with
  | Some b => ret b
  | None => raise (SQLAlchemyError "Could not refresh instance")
  end.

(** [async with async_session() as session: ...] and
    [Depends(get_session)]: a fresh session on the committed database; what
    is left uncommitted when the session closes is dropped. *)
Definition with_session {A} (m : Async A) (db : Database)
    (plan : list (option string)) : Outcome A * Database :=
  let '(out, s) := m (mkSession db db plan) in (out, stored s).

(** The plan in which no round trip fails. *)
Definition no_faults : list (option string) := [].

(** ** app/crud/crud_booking.py *)

Module CRUDBooking.

(** [select(Book).filter(Book.id == pk)] ... [.scalars().first()] *)
Definition select_book (pk : Z) (d : Database) : option Z :=
  find (fun k => k =? pk) (book_table d).

Definition select_user (pk : Z) (d : Database) : option Z :=
  find (fun k => k =? pk) (user_table d).

Definition select_booking (pk : Z) (d : Database) : option Booking.t :=
  find (by_id pk) (booking_table d).

(** The filter of [existing_bookings_query] in [create]. *)
Definition create_filter (obj_in : BookingCreate.t) (b : Booking.t) : bool :=
  (Booking.book_id b =? BookingCreate.book_id obj_in)
  && (Booking.end_time b >? BookingCreate.start_time obj_in)
  && (Booking.start_time b <? BookingCreate.end_time obj_in)
  && Bool.eqb (Booking.active b) true.

Definition create (obj_in : BookingCreate.t) : Async (option Booking.t) :=
  try_except
    (if BookingCreate.start_time obj_in >=? BookingCreate.end_time obj_in
     then raise (ValueError "Start time must be before end time")
     else
       book <- execute (select_book (BookingCreate.book_id obj_in)) ;;
       match book with
       | None => raise (ValueError "Book with given ID does not exist")
       | Some _ =>
         user <- execute (select_user (BookingCreate.user_id obj_in)) ;;
         match user with
         | None => raise (ValueError "User with given ID does not exist")
         | Some _ =>
           existing <- execute (fun d => find (create_filter obj_in) (booking_table d)) ;;
           match existing with
           | Some _ => ret None
           | None =>
             pk <- add (fun pk =>
                          Booking.mk pk
                            (BookingCreate.book_id obj_in)
                            (BookingCreate.user_id obj_in)
                            (BookingCreate.start_time obj_in)
                            (BookingCreate.end_time obj_in)
                            (BookingCreate.active obj_in)) ;;
             commit ;;
             db_obj <- refresh pk ;;
             ret (Some db_obj)
           end
         end
       end)
    (fun e =>
       match e with
       | SQLAlchemyError _ =>
         rollback ;; raise (Exception ("Database error occurred: " ++ str e)%string)
       | ValueError _ =>
         rollback ;; raise (Exception ("Validation error: " ++ str e)%string)
       | _ =>
         rollback ;; raise (Exception ("Unexpected error occurred: " ++ str e)%string)
       end).

Definition get (pk : Z) : Async (option Booking.t) :=
  try_except
    (execute (select_booking pk))
    (fun e =>
       match e with
       | SQLAlchemyError _ =>
         raise (Exception ("Database error occurred: " ++ str e)%string)
       | _ =>
         raise (Exception ("Unexpected error occurred: " ++ str e)%string)
       end).

(** The filter of [existing_bookings_query] in [update]. *)
Definition update_filter (db_obj : Booking.t) (start_time_naive end_time_naive : datetime)
    (b : Booking.t) : bool :=
  (Booking.book_id b =? Booking.book_id db_obj)
  && negb (Booking.id b =? Booking.id db_obj)
  && (Booking.end_time b >? start_time_naive)
  && (Booking.start_time b <? end_time_naive)
  && Bool.eqb (Booking.active b) true.

(** [for field, value in items: setattr(db_obj, field, value)] *)
Fixpoint setattr_all (pk : Z) (items : list Item) : Async unit :=
  match items with
  | [] => ret tt
  | it :: rest => setattr pk it ;; setattr_all pk rest
  end.

Definition update (db_obj : Booking.t) (obj_in : BookingUpdate.t)
    : Async (option Booking.t) :=
  try_except
    (if datetime_bool (BookingUpdate.start_time obj_in)
        && datetime_bool (BookingUpdate.end_time obj_in)
        && (BookingUpdate.start_time obj_in >=? BookingUpdate.end_time obj_in)
     then raise (ValueError "Start time must be before end time")
     else
       book <- execute (select_book (BookingUpdate.book_id obj_in)) ;;
       match book with
       | None => raise (ValueError "Book with given ID does not exist")
       | Some _ =>
         user <- execute (select_user (BookingUpdate.user_id obj_in)) ;;
         match user with
         | None => raise (ValueError "User with given ID does not exist")
         | Some _ =>
           let start_time_naive :=
             datetime_or (BookingUpdate.start_time obj_in) (Booking.start_time db_obj) in
           let end_time_naive :=
             datetime_or (BookingUpdate.end_time obj_in) (Booking.end_time db_obj) in
           existing <-
             (if datetime_bool start_time_naive || datetime_bool end_time_naive
              then execute (fun d =>
                     find (update_filter db_obj start_time_naive end_time_naive)
                       (booking_table d))
              else ret None) ;;
           match existing with
           | Some _ => ret None
           | None =>
             setattr_all (Booking.id db_obj) (BookingUpdate.dict_exclude_unset obj_in) ;;
             commit ;;
             db_obj' <- refresh (Booking.id db_obj) ;;
             ret (Some db_obj')
           end
         end
       end)
    (fun e =>
       match e with
       | SQLAlchemyError _ =>
         rollback ;; raise (Exception ("Database error occurred: " ++ str e)%string)
       | ValueError _ =>
         rollback ;; raise (Exception ("Validation error: " ++ str e)%string)
       | _ =>
         rollback ;; raise (Exception ("Unexpected error occurred: " ++ str e)%string)
       end).

Definition remove (pk : Z) : Async (option Booking.t) :=
  try_except
    (db_obj <- execute (select_booking pk) ;;
     match db_obj with
     | None => ret None
     | Some b =>
       delete (Booking.id b) ;;
       commit ;;
       ret (Some b)
     end)
    (fun e =>
       match e with
       | SQLAlchemyError _ =>
         raise (Exception ("Database error occurred: " ++ str e)%string)
       | _ =>
         raise (Exception ("Unexpected error occurred: " ++ str e)%string)
       end).

Definition cancel (utcnow : datetime) (pk : Z) : Async (option Booking.t) :=
  try_except
    (db_obj <- execute (select_booking pk) ;;
     match db_obj with
     | None => ret None
     | Some b =>
       setattr (Booking.id b) (Set_active false) ;;
       setattr (Booking.id b) (Set_end_time (utcnow + timedelta 3)) ;;
       commit ;;
       db_obj' <- refresh (Booking.id b) ;;
       ret (Some db_obj')
     end)
    (fun e =>
       match e with
       | SQLAlchemyError _ =>
         raise (Exception ("Database error occurred: " ++ str e)%string)
       | _ =>
         raise (Exception ("Unexpected error occurred: " ++ str e)%string)
       end).

(** [select(Booking).offset(skip).limit(limit)] on rows kept in insertion
    order.  PostgreSQL rejects a negative [OFFSET] or [LIMIT], the offset
    first; the text is the server's.  The integers are taken within the range
    of the database's [bigint]. *)
Definition select_offset_limit (skip limit : Z) (d : Database)
    : PyExc + list Booking.t :=
  if skip <? 0 then inl (SQLAlchemyError "OFFSET must not be negative")
  else if limit <? 0 then inl (SQLAlchemyError "LIMIT must not be negative")
  else inr (firstn (Z.to_nat limit) (skipn (Z.to_nat skip) (booking_table d))).

Definition get_multi (skip limit : Z) : Async (list Booking.t) :=
  try_except
    (result <- execute (select_offset_limit skip limit) ;;
     match result with
     | inl e => raise e
     | inr rows => ret rows
     end)
    (fun e =>
       match e with
       | SQLAlchemyError _ =>
         raise (Exception ("Database error occurred: " ++ str e)%string)
       | _ =>
         raise (Exception ("Unexpected error occurred: " ++ str e)%string)
       end).

End CRUDBooking.

(** ** app/tasks/booking_tasks.py *)

Definition expired (now : datetime) (b : Booking.t) : bool :=
  (Booking.end_time b <? now) && Bool.eqb (Booking.active b) true.

Fixpoint deactivate_all (expired_bookings : list Booking.t) : Async unit :=
  match expired_bookings with
  | [] => ret tt
  | booking :: rest =>
    setattr (Booking.id booking) (Set_active false) ;; deactivate_all rest
  end.

Definition update_bookings (utcnow : datetime) : Async unit :=
  let now := utcnow + timedelta 3 in
  expired_bookings <- execute (fun d => filter (expired now) (booking_table d)) ;;
  deactivate_all expired_bookings ;;
  commit.

(** [check_bookings]: the Celery task runs the coroutine to its end. *)
Definition check_bookings (utcnow : datetime) : Async unit := update_bookings utcnow.

(** ** app/api/v1/endpoints/booking.py *)

Definition create_booking (booking_in : BookingCreate.t) : Async Booking.t :=
  try_except
    (booking <- CRUDBooking.create booking_in ;;
     match booking with
     | None =>
       raise (HTTPException 400 "Book is already booked in the specified period")
     | Some b => ret b
     end)
    (fun e => raise (HTTPException 400 (str e))).

Definition read_booking (booking_id : Z) : Async Booking.t :=
  try_except
    (booking <- CRUDBooking.get booking_id ;;
     match booking with
     | None => raise (HTTPException 404 "Booking not found")
     | Some b => ret b
     end)
    (fun e => raise (HTTPException 500 (str e))).

Definition update_booking (booking_id : Z) (booking_in : BookingUpdate.t)
    : Async Booking.t :=
  try_except
    (booking <- CRUDBooking.get booking_id ;;
     match booking with
     | None => raise (HTTPException 404 "Booking not found")
     | Some b =>
       updated_booking <- CRUDBooking.update b booking_in ;;
       match updated_booking with
       | None =>
         raise (HTTPException 400 "Book is already booked in the specified period")
       | Some b' => ret b'
       end
     end)
    (fun e => raise (HTTPException 400 (str e))).

Definition delete_booking (booking_id : Z) : Async Booking.t :=
  try_except
    (booking <- CRUDBooking.remove booking_id ;;
     match booking with
     | None => raise (HTTPException 404 "Booking not found")
     | Some b => ret b
     end)
    (fun e => raise (HTTPException 500 (str e))).

Definition cancel_booking (utcnow : datetime) (booking_id : Z) : Async Booking.t :=
  try_except
    (booking <- CRUDBooking.cancel utcnow booking_id ;;
     match booking with
     | None => raise (HTTPException 404 "Booking not found")
     | Some b => ret b
     end)
    (fun e => raise (HTTPException 500 (str e))).

Definition read_bookings (skip limit : Z) : Async (list Booking.t) :=
  try_except
    (CRUDBooking.get_multi skip limit)
    (fun e => raise (HTTPException 500 (str e))).
(** ** The operations as one type each *)

(** A call of [CRUDBooking] that writes. *)
Inductive CrudCall :=
| Create (obj_in : BookingCreate.t)
| Update (db_obj : Booking.t) (obj_in : BookingUpdate.t)
| Cancel (utcnow : datetime) (pk : Z)
| Remove (pk : Z).

Definition crud_call (c : CrudCall) : Async (option Booking.t) :=
  match c with
  | Create obj_in => CRUDBooking.create obj_in
  | Update db_obj obj_in => CRUDBooking.update db_obj obj_in
  | Cancel utcnow pk => CRUDBooking.cancel utcnow pk
  | Remove pk => CRUDBooking.remove pk
  end.

(** The position of [commit] among the round trips of a call that runs to
    its end. *)
Definition commit_index (c : CrudCall) : nat :=
  match c with
  | Create _ => 3
  | Update _ _ => 3
  | Cancel _ _ => 1
  | Remove _ => 1
  end.

(** A request of the interface, or one run of the sweeper. *)
Inductive Operation :=
| OpCreate (booking_in : BookingCreate.t)
| OpUpdate (booking_id : Z) (booking_in : BookingUpdate.t)
| OpCancel (utcnow : datetime) (booking_id : Z)
| OpDelete (booking_id : Z)
| OpSweep (utcnow : datetime).

(** The stored state after an operation, under a plan of storage failures. *)
Definition perform (op : Operation) (plan : list (option string)) (db : Database)
    : Database :=
  match op with
  | OpCreate booking_in => snd (with_session (create_booking booking_in) db plan)
  | OpUpdate booking_id booking_in =>
    snd (with_session (update_booking booking_id booking_in) db plan)
  | OpCancel utcnow booking_id =>
    snd (with_session (cancel_booking utcnow booking_id) db plan)
  | OpDelete booking_id => snd (with_session (delete_booking booking_id) db plan)
  | OpSweep utcnow => snd (with_session (update_bookings utcnow) db plan)
  end.

(** ** The predicates of the specification *)

(** Half-open overlap of [a] with the interval [[s, e)]. *)
Definition overlaps (a : Booking.t) (s e : datetime) : Prop :=
  Booking.end_time a > s /\ Booking.start_time a < e.

(** No two distinct active bookings of one book overlap. *)
Definition non_overlap (db : Database) : Prop :=
  forall a b,
    In a (booking_table db) -> In b (booking_table db) ->
    Booking.id a <> Booking.id b ->
    Booking.active a = true -> Booking.active b = true ->
    Booking.book_id a = Booking.book_id b ->
    ~ overlaps a (Booking.start_time b) (Booking.end_time b).

(** The primary key of [booking]: unique, and below the serial. *)
Definition unique_ids (db : Database) : Prop :=
  NoDup (map Booking.id (booking_table db)).

Definition fresh_ids (db : Database) : Prop :=
  forall b, In b (booking_table db) -> Booking.id b < booking_id_seq db.

Definition wf (db : Database) : Prop := unique_ids db /\ fresh_ids db.

(** An existing booking that blocks a [create] request. *)
Definition blocks (obj_in : BookingCreate.t) (b : Booking.t) : Prop :=
  Booking.book_id b = BookingCreate.book_id obj_in
  /\ Booking.active b = true
  /\ overlaps b (BookingCreate.start_time obj_in) (BookingCreate.end_time obj_in).

(** The row [create] inserts, and the database after it. *)
Definition new_row (db : Database) (obj_in : BookingCreate.t) : Booking.t :=
  Booking.mk (booking_id_seq db)
    (BookingCreate.book_id obj_in) (BookingCreate.user_id obj_in)
    (BookingCreate.start_time obj_in) (BookingCreate.end_time obj_in)
    (BookingCreate.active obj_in).

Definition inserted (db : Database) (obj_in : BookingCreate.t) : Database :=
  mkDatabase (booking_table db ++ [new_row db obj_in]) (book_table db)
    (user_table db) (booking_id_seq db + 1).

(** [start_time >= end_time] in the payload of a call. *)
Definition ordering_violated (c : CrudCall) : Prop :=
  match c with
  | Create obj_in => BookingCreate.start_time obj_in >= BookingCreate.end_time obj_in
  | Update _ obj_in => BookingUpdate.start_time obj_in >= BookingUpdate.end_time obj_in
  | _ => False
  end.

(** What [cancel] makes of a row. *)
Definition cancelled (utcnow : datetime) (b : Booking.t) : Booking.t :=
  Booking.mk (Booking.id b) (Booking.book_id b) (Booking.user_id b)
    (Booking.start_time b) (utcnow + timedelta 3) false.

(** What one sweep at the reference instant [now] makes of a row. *)
Definition sweep_row (now : datetime) (b : Booking.t) : Booking.t :=
  if expired now b then Booking.setattr b (Set_active false) else b.

(** The rows of primary key [pk] rewritten by [f]. *)
Definition rewrite_rows (pk : Z) (f : Booking.t -> Booking.t) (rows : list Booking.t)
    : list Booking.t :=
  map (fun b => if Booking.id b =? pk then f b else b) rows.

(** [setattr] for every item of a payload, in order. *)
Definition apply_items (items : list Item) (b : Booking.t) : Booking.t :=
  fold_left Booking.setattr items b.

(** [booking.active = False] on one row. *)
Definition deactivate (b : Booking.t) : Booking.t := Booking.setattr b (Set_active false).

(** Whether the primary key of [x] is that of a row of [l]. *)
Definition listed (l : list Booking.t) (x : Booking.t) : bool :=
  existsb (fun b => Booking.id x =? Booking.id b) l.

(** Active, and not over at the reference instant [now]. *)
Definition outlasts (now : datetime) (b : Booking.t) : bool :=
  Booking.active b && (now <=? Booking.end_time b).


(** A history: operations in order, each with the failures it meets. *)
Definition History := list (Operation * list (option string)).

Fixpoint replay (h : History) (db : Database) : Database :=
  match h with
  | [] => db
  | (op, plan) :: rest => replay rest (perform op plan db)
  end.


(** Another stored booking that blocks an [update] of [db_obj]: the book is
    the one [db_obj] is on, the interval is the payload's. *)
Definition update_blocks (db_obj : Booking.t) (obj_in : BookingUpdate.t)
    (b : Booking.t) : Prop :=
  Booking.book_id b = Booking.book_id db_obj
  /\ Booking.id b <> Booking.id db_obj
  /\ Booking.active b = true
  /\ overlaps b (BookingUpdate.start_time obj_in) (BookingUpdate.end_time obj_in).

(** The database after a successful [update] of the row [pk]. *)
Definition updated (db : Database) (pk : Z) (obj_in : BookingUpdate.t) : Database :=
  with_bookings db
    (rewrite_rows pk (apply_items (BookingUpdate.dict_exclude_unset obj_in))
       (booking_table db)).

(** The book, the user and the interval a call names in its payload. *)
Definition payload (c : CrudCall) : option (Z * Z * datetime * datetime) :=
  match c with
  | Create obj_in =>
    Some (BookingCreate.book_id obj_in, BookingCreate.user_id obj_in,
          BookingCreate.start_time obj_in, BookingCreate.end_time obj_in)
  | Update _ obj_in =>
    Some (BookingUpdate.book_id obj_in, BookingUpdate.user_id obj_in,
          BookingUpdate.start_time obj_in, BookingUpdate.end_time obj_in)
  | _ => None
  end.

(** An endpoint answers with [status] whenever it does not return. *)
Definition answers {A} (status : Z) (out : Outcome A) : Prop :=
  match out with
  | Return _ => True
  | Raise (HTTPException code _) => code = status
  | Raise _ => False
  end.

(** Every stored booking starts before it ends. *)
Definition ordered (db : Database) : Prop :=
  forall b, In b (booking_table db) -> Booking.start_time b < Booking.end_time b.

Definition is_cancel (op : Operation) : bool :=
  match op with
  | OpCancel _ _ => true
  | _ => false
  end.

Fixpoint no_cancel (h : History) : bool :=
  match h with
  | [] => true
  | (op, _) :: rest => negb (is_cancel op) && no_cancel rest
  end.

(** The fields a request supplies, read off the schema: the four fields of
    [BookingBase] without a default are in every payload, [active] is there
    when the request gave it, [id] is no field of the payload. *)
Definition field_supplied (obj_in : BookingUpdate.t) (f : Field) : bool :=
  match f with
  | F_id => false
  | F_active => BookingUpdate.active_set obj_in
  | F_book_id | F_user_id | F_start_time | F_end_time => true
  end.

(** The value the payload holds for a field. *)
Definition field_payload (obj_in : BookingUpdate.t) (f : Field) : option Value :=
  match f with
  | F_id => None
  | F_book_id => Some (VInt (BookingUpdate.book_id obj_in))
  | F_user_id => Some (VInt (BookingUpdate.user_id obj_in))
  | F_start_time => Some (VDatetime (BookingUpdate.start_time obj_in))
  | F_end_time => Some (VDatetime (BookingUpdate.end_time obj_in))
  | F_active => Some (VBool (BookingUpdate.active obj_in))
  end.

(** ** Sample data *)

(** One active booking of book 7 by user 3 over [[1000, 1200)]. *)
Definition library : Database :=
  mkDatabase [Booking.mk 1 7 3 1000 1200 true] [7; 8] [3; 5] 2.

(** The same booking, already inactive. *)
Definition shelved : Database :=
  mkDatabase [Booking.mk 1 7 3 1000 1200 false] [7; 8] [3; 5] 2.

(** Four bookings swept at reference instant [timedelta 3]: booking 1 is
    active and over, booking 2 is active and ends later, booking 3 is over
    but inactive, booking 4 is active and ends exactly at the reference. *)
Definition reading_room : Database :=
  mkDatabase
    [Booking.mk 1 7 3 1000 1200 true;
     Booking.mk 2 7 5 1200 (timedelta 4) true;
     Booking.mk 3 8 5 1000 1100 false;
     Booking.mk 4 8 3 2000 (timedelta 3) true]
    [7; 8] [3; 5] 5.

(** A request for book 7 that starts where booking 1 ends. *)
Definition adjacent_request : BookingCreate.t := BookingCreate.mk 7 5 1200 1400 true.

(** Two active bookings over the same hours, of two different books. *)
Definition two_books : Database :=
  mkDatabase
    [Booking.mk 1 7 3 1000 1200 true; Booking.mk 2 8 5 1000 1200 true]
    [7; 8] [3; 5] 3.

(** Booking 2 asked onto book 7, same hours; [active] is left out. *)
Definition move_request : BookingUpdate.t := BookingUpdate.mk 7 5 1000 1200 true false.

(** Booking 2 kept on book 7 and moved to later hours. *)
Definition later_request : BookingUpdate.t := BookingUpdate.mk 7 5 1300 1500 true false.

(** A history on [library]: an adjacent booking is created, moved to later
    hours, the first booking is cancelled while the storage fails, and the
    sweeper runs. *)
Definition busy_week : History :=
  [(OpCreate adjacent_request, no_faults);
   (OpUpdate 2 later_request, no_faults);
   (OpCancel 500 1, [Some "connection lost"%string]);
   (OpSweep 0, no_faults)].

(** * Running a coroutine: one equation per primitive *)

Lemma ret_run {A} (a : A) s : ret a s = (Return a, s).
Proof. reflexivity. Qed.

Lemma raise_run {A} e s : @raise A e s = (Raise e, s).
Proof. reflexivity. Qed.

Lemma bind_run {A B} (m : Async A) (k : A -> Async B) s :
  bind m k s =
  match m s with
  | (Return a, s') => k a s'
  | (Raise e, s') => (Raise e, s')
  end.
Proof. reflexivity. Qed.

Lemma try_except_run {A} (body : Async A) handler s :
  try_except body handler s =
  match body s with
  | (Return a, s') => (Return a, s')
  | (Raise e, s') => handler e s'
  end.
Proof. reflexivity. Qed.

Lemma execute_run {A} (q : Database -> A) st vw pl :
  execute q (mkSession st vw pl) =
  match hd None pl with
  | Some msg => (Raise (SQLAlchemyError msg), mkSession st vw (tl pl))
  | None => (Return (q vw), mkSession st vw (tl pl))
  end.
Proof. unfold execute, bind, round_trip; cbn. destruct (hd None pl); reflexivity. Qed.

Lemma commit_run st vw pl :
  commit (mkSession st vw pl) =
  match hd None pl with
  | Some msg => (Raise (SQLAlchemyError msg), mkSession st vw (tl pl))
  | None => (Return tt, mkSession vw vw (tl pl))
  end.
Proof. unfold commit, bind, round_trip; cbn. destruct (hd None pl); reflexivity. Qed.

Lemma rollback_run st vw pl : rollback (mkSession st vw pl) = (Return tt, mkSession st st pl).
Proof. reflexivity. Qed.

Lemma refresh_run pk st vw pl :
  refresh pk (mkSession st vw pl) =
  match hd None pl with
  | Some msg => (Raise (SQLAlchemyError msg), mkSession st vw (tl pl))
  | None =>
    match find (by_id pk) (booking_table vw) with
    | Some b => (Return b, mkSession st vw (tl pl))
    | None => (Raise (SQLAlchemyError "Could not refresh instance"), mkSession st vw (tl pl))
    end
  end.
Proof.
  unfold refresh. rewrite bind_run, execute_run.
  destruct (hd None pl); [reflexivity|].
  destruct (find _ _); reflexivity.
Qed.

Lemma add_run row st vw pl :
  add row (mkSession st vw pl) =
  (Return (booking_id_seq vw),
   mkSession st
     (mkDatabase (booking_table vw ++ [row (booking_id_seq vw)]) (book_table vw)
        (user_table vw) (booking_id_seq vw + 1)) pl).
Proof. reflexivity. Qed.

Lemma setattr_run pk it st vw pl :
  setattr pk it (mkSession st vw pl) =
  (Return tt,
   mkSession st
     (with_bookings vw
        (map (fun b => if Booking.id b =? pk then Booking.setattr b it else b)
           (booking_table vw))) pl).
Proof. reflexivity. Qed.

Lemma delete_run pk st vw pl :
  delete pk (mkSession st vw pl) =
  (Return tt,
   mkSession st
     (with_bookings vw (filter (fun b => negb (Booking.id b =? pk)) (booking_table vw))) pl).
Proof. reflexivity. Qed.

#[local] Opaque execute commit rollback refresh add setattr delete bind try_except ret raise.

Create Rewrite HintDb run.

#[local] Hint Rewrite @ret_run @raise_run @bind_run @try_except_run @execute_run
  commit_run rollback_run refresh_run add_run setattr_run delete_run : run.

Ltac run :=
  repeat (autorewrite with run; cbn [hd tl fst snd stored view faults str]).

(** * Lookups in the tables *)

Lemma by_id_true pk b : by_id pk b = true <-> Booking.id b = pk.
Proof. unfold by_id. apply Z.eqb_eq. Qed.

Lemma find_by_id_some pk l b :
  find (by_id pk) l = Some b -> In b l /\ Booking.id b = pk.
Proof.
  intros H. apply find_some in H. destruct H as [H1 H2].
  split; [assumption | now apply by_id_true].
Qed.

Lemma find_by_id_in pk l :
  (exists b, In b l /\ Booking.id b = pk) ->
  exists b, find (by_id pk) l = Some b.
Proof.
  intros [b [Hin Hid]].
  destruct (find (by_id pk) l) as [x|] eqn:E; [now exists x|].
  apply (find_none _ _ E) in Hin. apply by_id_true in Hid. congruence.
Qed.

Lemma find_by_id_none pk l :
  (forall b, In b l -> Booking.id b <> pk) -> find (by_id pk) l = None.
Proof.
  intros H. destruct (find (by_id pk) l) as [x|] eqn:E; [|reflexivity].
  apply find_by_id_some in E. destruct E as [Hin Hid]. now apply H in Hin.
Qed.

Lemma find_key_in pk (l : list Z) :
  In pk l -> exists k, find (fun k => k =? pk) l = Some k.
Proof.
  intros Hin. destruct (find (fun k => k =? pk) l) as [k|] eqn:E; [now exists k|].
  apply (find_none _ _ E) in Hin. rewrite Z.eqb_refl in Hin. discriminate.
Qed.

Lemma find_app_none {A} (f : A -> bool) l x :
  find f l = None -> find f (l ++ [x]) = if f x then Some x else None.
Proof.
  induction l as [|a l IH]; cbn; [reflexivity|].
  destruct (f a); [discriminate | exact IH].
Qed.

(** Rewriting the rows of one primary key leaves lookups by key in place. *)
Lemma find_by_id_map pk (f : Booking.t -> Booking.t) l :
  (forall b, Booking.id (f b) = Booking.id b) ->
  find (by_id pk) (map f l) = option_map f (find (by_id pk) l).
Proof.
  intros Hf. induction l as [|a l IH]; cbn; [reflexivity|].
  unfold by_id at 1 3. rewrite Hf.
  destruct (Booking.id a =? pk); [reflexivity | exact IH].
Qed.

Lemma setattr_id b it : Booking.id (Booking.setattr b it) = Booking.id b.
Proof. destruct it; reflexivity. Qed.

Lemma create_filter_blocks obj_in b :
  CRUDBooking.create_filter obj_in b = true <-> blocks obj_in b.
Proof.
  unfold CRUDBooking.create_filter, blocks, overlaps.
  rewrite !andb_true_iff, Z.eqb_eq, Z.gtb_gt, Z.ltb_lt, eqb_true_iff.
  tauto.
Qed.

Lemma find_create_filter_none obj_in l :
  find (CRUDBooking.create_filter obj_in) l = None <->
  ~ exists b, In b l /\ blocks obj_in b.
Proof.
  split.
  - intros E [b [Hin Hb]]. apply (find_none _ _ E) in Hin.
    apply create_filter_blocks in Hb. congruence.
  - intros H. destruct (find _ l) as [b|] eqn:E; [|reflexivity].
    apply find_some in E. destruct E as [Hin Hb].
    exfalso. apply H. exists b. split; [assumption|]. now apply create_filter_blocks.
Qed.

(** * [create] when no round trip fails *)

Lemma create_run db obj_in :
  BookingCreate.start_time obj_in < BookingCreate.end_time obj_in ->
  In (BookingCreate.book_id obj_in) (book_table db) ->
  In (BookingCreate.user_id obj_in) (user_table db) ->
  with_session (CRUDBooking.create obj_in) db no_faults =
  match find (CRUDBooking.create_filter obj_in) (booking_table db) with
  | Some _ => (Return None, db)
  | None =>
    match find (by_id (booking_id_seq db)) (booking_table db ++ [new_row db obj_in]) with
    | Some b => (Return (Some b), inserted db obj_in)
    | None =>
      (Raise (Exception "Database error occurred: Could not refresh instance"),
       inserted db obj_in)
    end
  end.
Proof.
  intros Hlt Hbook Huser.
  unfold with_session, CRUDBooking.create, no_faults. run.
  destruct (Z.geb_spec (BookingCreate.start_time obj_in) (BookingCreate.end_time obj_in));
    [lia|].
  run.
  apply find_key_in in Hbook. destruct Hbook as [k Hk].
  unfold CRUDBooking.select_book. rewrite Hk. run.
  apply find_key_in in Huser. destruct Huser as [k' Hk'].
  unfold CRUDBooking.select_user. rewrite Hk'. run.
  destruct (find (CRUDBooking.create_filter obj_in) (booking_table db)) eqn:E; run;
    [reflexivity|].
  cbn [booking_table]. fold (new_row db obj_in).
  destruct (find (by_id (booking_id_seq db)) (booking_table db ++ [new_row db obj_in]));
    run; reflexivity.
Qed.

Lemma create_run_conflict db obj_in :
  BookingCreate.start_time obj_in < BookingCreate.end_time obj_in ->
  In (BookingCreate.book_id obj_in) (book_table db) ->
  In (BookingCreate.user_id obj_in) (user_table db) ->
  (exists b, In b (booking_table db) /\ blocks obj_in b) ->
  with_session (CRUDBooking.create obj_in) db no_faults = (Return None, db).
Proof.
  intros Hlt Hbook Huser Hc. rewrite create_run by assumption.
  destruct (find _ _) eqn:E; [reflexivity|].
  now apply find_create_filter_none in E.
Qed.

Lemma create_run_insert db obj_in :
  BookingCreate.start_time obj_in < BookingCreate.end_time obj_in ->
  In (BookingCreate.book_id obj_in) (book_table db) ->
  In (BookingCreate.user_id obj_in) (user_table db) ->
  fresh_ids db ->
  ~ (exists b, In b (booking_table db) /\ blocks obj_in b) ->
  with_session (CRUDBooking.create obj_in) db no_faults =
  (Return (Some (new_row db obj_in)), inserted db obj_in).
Proof.
  intros Hlt Hbook Huser Hfresh Hc. rewrite create_run by assumption.
  apply find_create_filter_none in Hc. rewrite Hc.
  rewrite find_app_none.
  - unfold by_id, new_row. cbn [Booking.id]. rewrite Z.eqb_refl. reflexivity.
  - apply find_by_id_none. intros b Hin. apply Hfresh in Hin. lia.
Qed.

(** * The ordering precondition *)

(** C3. [create] and [update] called with [start_time >= end_time] raise the
    validation error and leave the stored bookings as they were, whatever
    the storage layer would have done: no round trip is made. *)
Theorem ordering_precondition (c : CrudCall) (db : Database)
    (plan : list (option string)) :
  ordering_violated c ->
  with_session (crud_call c) db plan =
  (Raise (Exception "Validation error: Start time must be before end time"), db).
Proof.
  destruct c as [obj_in | db_obj obj_in | utcnow pk | pk]; cbn [ordering_violated crud_call];
    intros Hv; try contradiction.
  - unfold with_session, CRUDBooking.create. run.
    destruct (Z.geb_spec (BookingCreate.start_time obj_in) (BookingCreate.end_time obj_in));
      [|lia].
    run. reflexivity.
  - unfold with_session, CRUDBooking.update, datetime_bool. cbn [andb]. run.
    destruct (Z.geb_spec (BookingUpdate.start_time obj_in) (BookingUpdate.end_time obj_in));
      [|lia].
    run. reflexivity.
Qed.

Lemma ordering_precondition_witness :
  with_session (CRUDBooking.create (BookingCreate.mk 7 5 1300 1300 true)) library
    [None; Some "connection lost"%string]
  = (Raise (Exception "Validation error: Start time must be before end time"), library)
  /\ with_session
       (CRUDBooking.update (Booking.mk 1 7 3 1000 1200 true)
          (BookingUpdate.mk 7 3 1500 1400 true false)) library no_faults
     = (Raise (Exception "Validation error: Start time must be before end time"), library).
Proof.
  split.
  - apply (ordering_precondition (Create (BookingCreate.mk 7 5 1300 1300 true))).
    cbn. lia.
  - apply (ordering_precondition
             (Update (Booking.mk 1 7 3 1000 1200 true)
                (BookingUpdate.mk 7 3 1500 1400 true false))).
    cbn. lia.
Defined.

(** * Conflict detection in [create] *)

(** C2. For a request with [start_time < end_time] on an existing book by an
    existing user, [create] returns the conflict outcome [None] (it does not
    raise) exactly when some stored booking of the same book is active and
    overlaps the requested half-open interval; then nothing is stored.
    Otherwise it stores and returns a new row carrying exactly the fields of
    the request.  A request that starts where the only stored booking ends
    is accepted. *)
Theorem create_conflict_iff_overlap (db : Database) (obj_in : BookingCreate.t) :
  BookingCreate.start_time obj_in < BookingCreate.end_time obj_in ->
  In (BookingCreate.book_id obj_in) (book_table db) ->
  In (BookingCreate.user_id obj_in) (user_table db) ->
  fresh_ids db ->
  let result := with_session (CRUDBooking.create obj_in) db no_faults in
  let conflict := exists b, In b (booking_table db) /\ blocks obj_in b in
  (fst result = Return None <-> conflict)
  /\ (conflict -> result = (Return None, db))
  /\ (~ conflict ->
      result = (Return (Some (new_row db obj_in)), inserted db obj_in))
  /\ (forall b,
        booking_table db = [b] ->
        BookingCreate.start_time obj_in = Booking.end_time b ->
        result = (Return (Some (new_row db obj_in)), inserted db obj_in)).
Proof.
  intros Hlt Hbook Huser Hfresh result conflict.
  assert (Hyes : conflict -> result = (Return None, db))
    by (intros Hc; now apply create_run_conflict).
  assert (Hno : ~ conflict ->
                result = (Return (Some (new_row db obj_in)), inserted db obj_in))
    by (intros Hc; now apply create_run_insert).
  repeat split; try assumption.
  - intros Hres.
    destruct (find (CRUDBooking.create_filter obj_in) (booking_table db)) as [b|] eqn:E.
    + apply find_some in E. destruct E as [Hin Hb]. exists b.
      split; [assumption | now apply create_filter_blocks].
    + apply find_create_filter_none in E. rewrite (Hno E) in Hres. discriminate.
  - intros Hc. now rewrite (Hyes Hc).
  - intros b Htable Hadj. apply Hno. intros [x [Hin [_ [_ [Hgt _]]]]].
    rewrite Htable in Hin. destruct Hin as [<- | []]. lia.
Qed.

Lemma create_conflict_iff_overlap_witness :
  let late := BookingCreate.mk 7 5 1200 1400 true in
  with_session (CRUDBooking.create late) library no_faults
  = (Return (Some (Booking.mk 2 7 5 1200 1400 true)),
     mkDatabase [Booking.mk 1 7 3 1000 1200 true; Booking.mk 2 7 5 1200 1400 true]
       [7; 8] [3; 5] 3).
Proof.
  intros late.
  assert (Hlt : BookingCreate.start_time late < BookingCreate.end_time late)
    by (cbn; lia).
  assert (Hbook : In (BookingCreate.book_id late) (book_table library))
    by (cbn; auto).
  assert (Huser : In (BookingCreate.user_id late) (user_table library))
    by (cbn; auto).
  assert (Hfresh : fresh_ids library).
  { intros b [<- | []]. cbn. lia. }
  destruct (create_conflict_iff_overlap library late Hlt Hbook Huser Hfresh)
    as [_ [_ [_ Hadj]]].
  apply (Hadj (Booking.mk 1 7 3 1000 1200 true)); reflexivity.
Defined.

(** C10. An active booking of the same book that overlaps the request blocks
    it even when its [end_time] already lies before the current instant and
    the sweeper has not yet run: [create] never looks at the clock. *)
Theorem expired_active_booking_blocks (db : Database) (obj_in : BookingCreate.t)
    (utcnow : datetime) (b : Booking.t) :
  BookingCreate.start_time obj_in < BookingCreate.end_time obj_in ->
  In (BookingCreate.book_id obj_in) (book_table db) ->
  In (BookingCreate.user_id obj_in) (user_table db) ->
  In b (booking_table db) ->
  Booking.book_id b = BookingCreate.book_id obj_in ->
  Booking.active b = true ->
  overlaps b (BookingCreate.start_time obj_in) (BookingCreate.end_time obj_in) ->
  Booking.end_time b < utcnow ->
  with_session (CRUDBooking.create obj_in) db no_faults = (Return None, db).
Proof.
  intros Hlt Hbook Huser Hin Hsame Hact Hov _.
  apply create_run_conflict; try assumption.
  exists b. unfold blocks. auto.
Qed.

Lemma expired_active_booking_blocks_witness :
  with_session (CRUDBooking.create (BookingCreate.mk 7 5 1100 1300 true)) library
    no_faults
  = (Return None, library).
Proof.
  apply (expired_active_booking_blocks library (BookingCreate.mk 7 5 1100 1300 true)
           5000 (Booking.mk 1 7 3 1000 1200 true)).
  - cbn; lia.
  - cbn; auto.
  - cbn; auto.
  - cbn; auto.
  - reflexivity.
  - reflexivity.
  - unfold overlaps; cbn; lia.
  - cbn; lia.
Defined.

(** * Rewriting rows by primary key *)

Lemma apply_items_id items b : Booking.id (apply_items items b) = Booking.id b.
Proof.
  unfold apply_items. revert b.
  induction items as [|it items IH]; intros b; cbn; [reflexivity|].
  rewrite IH. apply setattr_id.
Qed.

Lemma rewrite_rows_compose pk f g rows :
  (forall b, Booking.id (f b) = Booking.id b) ->
  rewrite_rows pk g (rewrite_rows pk f rows) = rewrite_rows pk (fun b => g (f b)) rows.
Proof.
  intros Hf. unfold rewrite_rows. rewrite map_map. apply map_ext. intros b.
  destruct (Booking.id b =? pk) eqn:E.
  - rewrite Hf, E. reflexivity.
  - rewrite E. reflexivity.
Qed.

Lemma find_rewrite_rows pk f rows :
  (forall b, Booking.id (f b) = Booking.id b) ->
  find (by_id pk) (rewrite_rows pk f rows) = option_map f (find (by_id pk) rows).
Proof.
  intros Hf. unfold rewrite_rows.
  rewrite find_by_id_map.
  - destruct (find (by_id pk) rows) as [b|] eqn:E; [|reflexivity].
    apply find_by_id_some in E. destruct E as [_ E]. cbn.
    apply Z.eqb_eq in E. rewrite E. reflexivity.
  - intros b. destruct (Booking.id b =? pk); [apply Hf | reflexivity].
Qed.

Lemma rewrite_rows_other pk f rows x :
  In x rows -> Booking.id x <> pk -> In x (rewrite_rows pk f rows).
Proof.
  intros Hin Hne. unfold rewrite_rows. apply in_map_iff. exists x.
  apply Z.eqb_neq in Hne. rewrite Hne. auto.
Qed.

Lemma find_by_id_unique rows b :
  NoDup (map Booking.id rows) -> In b rows ->
  find (by_id (Booking.id b)) rows = Some b.
Proof.
  induction rows as [|a rows IH]; intros Hnd Hin; [contradiction|].
  cbn in Hnd. inversion Hnd as [|? ? Hnotin Hnd']; subst.
  cbn. unfold by_id at 1.
  destruct Hin as [-> | Hin].
  - rewrite Z.eqb_refl. reflexivity.
  - destruct (Z.eqb_spec (Booking.id a) (Booking.id b)) as [E|E].
    + exfalso. apply Hnotin. rewrite E. now apply in_map.
    + now apply IH.
Qed.

Lemma setattr_all_run pk items st vw pl :
  CRUDBooking.setattr_all pk items (mkSession st vw pl) =
  (Return tt,
   mkSession st (with_bookings vw (rewrite_rows pk (apply_items items) (booking_table vw)))
     pl).
Proof.
  revert vw. induction items as [|it items IH]; intros vw; cbn [CRUDBooking.setattr_all].
  - run. unfold rewrite_rows, apply_items. cbn [fold_left].
    rewrite (map_ext _ (fun b => b)).
    + rewrite map_id. destruct vw; reflexivity.
    + intros b. destruct (Booking.id b =? pk); reflexivity.
  - run. rewrite IH. cbn [with_bookings booking_table book_table user_table booking_id_seq].
    fold (rewrite_rows pk (fun b => Booking.setattr b it) (booking_table vw)).
    rewrite rewrite_rows_compose by (intros b; apply setattr_id).
    reflexivity.
Qed.

(** * [cancel] when no round trip fails *)

Lemma cancel_run db utcnow pk :
  with_session (CRUDBooking.cancel utcnow pk) db no_faults =
  match find (by_id pk) (booking_table db) with
  | None => (Return None, db)
  | Some b =>
    (Return (Some (cancelled utcnow b)),
     with_bookings db (rewrite_rows pk (cancelled utcnow) (booking_table db)))
  end.
Proof.
  unfold with_session, CRUDBooking.cancel, no_faults. run.
  unfold CRUDBooking.select_booking.
  destruct (find (by_id pk) (booking_table db)) as [b|] eqn:E; run; [|reflexivity].
  pose proof (find_by_id_some _ _ _ E) as [_ Hid]. rewrite Hid.
  cbn [with_bookings booking_table book_table user_table booking_id_seq].
  fold (rewrite_rows pk (fun b => Booking.setattr b (Set_active false)) (booking_table db)).
  fold (rewrite_rows pk (fun b => Booking.setattr b (Set_end_time (utcnow + timedelta 3)))
          (rewrite_rows pk (fun b => Booking.setattr b (Set_active false)) (booking_table db))).
  rewrite rewrite_rows_compose by (intros x; apply setattr_id).
  change (fun b0 => Booking.setattr (Booking.setattr b0 (Set_active false))
                      (Set_end_time (utcnow + timedelta 3)))
    with (cancelled utcnow).
  rewrite find_rewrite_rows by reflexivity.
  rewrite E. cbn [option_map]. run. reflexivity.
Qed.

(** C5. When a booking with the given id is stored, [cancel] sets its
    [active] to false and its [end_time] to the current instant plus three
    hours, whatever else is stored (there is no overlap check and no conflict
    outcome), and returns the updated row; when none is stored it returns
    [None], the not-found signal, and stores nothing. *)
Theorem cancel_deactivates (db : Database) (utcnow : datetime) (pk : Z) :
  let result := with_session (CRUDBooking.cancel utcnow pk) db no_faults in
  ((exists b, In b (booking_table db) /\ Booking.id b = pk) ->
   exists b,
     let b' := cancelled utcnow b in
     find (by_id pk) (booking_table db) = Some b
     /\ result = (Return (Some b'), with_bookings db (rewrite_rows pk (cancelled utcnow) (booking_table db)))
     /\ find (by_id pk) (booking_table (snd result)) = Some b'
     /\ Booking.active b' = false
     /\ Booking.end_time b' = utcnow + timedelta 3
     /\ Booking.id b' = pk
     /\ Booking.book_id b' = Booking.book_id b
     /\ Booking.user_id b' = Booking.user_id b
     /\ Booking.start_time b' = Booking.start_time b)
  /\ ((forall b, In b (booking_table db) -> Booking.id b <> pk) ->
      result = (Return None, db)).
Proof.
  intros result. subst result. rewrite cancel_run. split.
  - intros Hex. apply find_by_id_in in Hex. destruct Hex as [b Hb].
    rewrite Hb. exists b. cbn zeta.
    cbn [snd with_bookings booking_table].
    rewrite find_rewrite_rows by reflexivity. rewrite Hb.
    apply find_by_id_some in Hb. destruct Hb as [_ Hid].
    repeat split; assumption.
  - intros Hnone. rewrite (find_by_id_none _ _ Hnone). reflexivity.
Qed.

Lemma cancel_deactivates_witness :
  with_session (CRUDBooking.cancel 500 1) library no_faults
  = (Return (Some (Booking.mk 1 7 3 1000 10800000500 false)),
     mkDatabase [Booking.mk 1 7 3 1000 10800000500 false] [7; 8] [3; 5] 2)
  /\ with_session (CRUDBooking.cancel 500 9) library no_faults = (Return None, library).
Proof.
  destruct (cancel_deactivates library 500 1) as [Hsome _].
  destruct (cancel_deactivates library 500 9) as [_ Hnone].
  split.
  - destruct Hsome as [b [Hb [Hres _]]].
    + exists (Booking.mk 1 7 3 1000 1200 true). cbn. auto.
    + rewrite Hres. vm_compute in Hb. injection Hb as <-. reflexivity.
  - apply Hnone. intros b [<- | []]. cbn. lia.
Defined.

(** * [cancel] on a booking that is already inactive *)

(** C6, as stated, fails: cancelling the inactive booking 1 of [shelved] at
    instant 500 is neither a no-op that returns the row as it is, nor a
    not-found: the row comes back with a new [end_time], and is stored so. *)
Lemma cancel_inactive_is_not_a_noop :
  let b := Booking.mk 1 7 3 1000 1200 false in
  let result := with_session (CRUDBooking.cancel 500 (Booking.id b)) shelved no_faults in
  In b (booking_table shelved)
  /\ Booking.active b = false
  /\ result <> (Return (Some b), shelved)
  /\ result <> (Return None, shelved)
  /\ result = (Return (Some (Booking.mk 1 7 3 1000 10800000500 false)),
               mkDatabase [Booking.mk 1 7 3 1000 10800000500 false] [7; 8] [3; 5] 2).
Proof.
  cbn zeta.
  assert (E : with_session (CRUDBooking.cancel 500 1) shelved no_faults
              = (Return (Some (Booking.mk 1 7 3 1000 10800000500 false)),
                 mkDatabase [Booking.mk 1 7 3 1000 10800000500 false] [7; 8] [3; 5] 2))
    by (vm_compute; reflexivity).
  cbn [Booking.id]. rewrite E.
  repeat split; try (cbn; auto; fail); intros H; discriminate H.
Qed.

(** C6, amended.  Cancelling a stored booking that is already inactive
    never gives not-found: it returns the row with [active] still false and
    [end_time] reset to the current instant plus three hours, and stores it
    so; [id], [book_id], [user_id] and [start_time] keep their values, and
    every row of another id stays as it is. *)
Theorem cancel_inactive_resets_end_time (db : Database) (utcnow : datetime)
    (b : Booking.t) :
  unique_ids db ->
  In b (booking_table db) ->
  Booking.active b = false ->
  exists b' db',
    with_session (CRUDBooking.cancel utcnow (Booking.id b)) db no_faults
    = (Return (Some b'), db')
    /\ find (by_id (Booking.id b)) (booking_table db') = Some b'
    /\ Booking.id b' = Booking.id b
    /\ Booking.book_id b' = Booking.book_id b
    /\ Booking.user_id b' = Booking.user_id b
    /\ Booking.start_time b' = Booking.start_time b
    /\ Booking.active b' = false
    /\ Booking.end_time b' = utcnow + timedelta 3
    /\ (forall x, In x (booking_table db) -> Booking.id x <> Booking.id b ->
                  In x (booking_table db')).
Proof.
  intros Huniq Hin Hact.
  exists (cancelled utcnow b).
  exists (with_bookings db (rewrite_rows (Booking.id b) (cancelled utcnow) (booking_table db))).
  rewrite cancel_run. rewrite (find_by_id_unique _ _ Huniq Hin).
  cbn [with_bookings booking_table].
  rewrite find_rewrite_rows by reflexivity.
  rewrite (find_by_id_unique _ _ Huniq Hin).
  repeat split.
  intros x Hx Hne. now apply rewrite_rows_other.
Qed.

Lemma cancel_inactive_resets_end_time_witness :
  exists b' db',
    with_session (CRUDBooking.cancel 500 1) shelved no_faults = (Return (Some b'), db')
    /\ Booking.start_time b' = 1000
    /\ Booking.active b' = false
    /\ Booking.end_time b' = 500 + timedelta 3.
Proof.
  assert (Huniq : unique_ids shelved).
  { unfold unique_ids. cbn. constructor; [intros [] | constructor]. }
  assert (Hin : In (Booking.mk 1 7 3 1000 1200 false) (booking_table shelved))
    by (cbn; auto).
  destruct (cancel_inactive_resets_end_time shelved 500
              (Booking.mk 1 7 3 1000 1200 false) Huniq Hin eq_refl)
    as [b' [db' [Hres [_ [_ [_ [_ [Hstart [Hact [Hend _]]]]]]]]]].
  exists b', db'. cbn in Hres, Hstart. auto.
Defined.

(** * The expiry sweeper *)

Lemma deactivate_all_run l st vw pl :
  deactivate_all l (mkSession st vw pl) =
  (Return tt,
   mkSession st
     (with_bookings vw
        (map (fun x => if listed l x then deactivate x else x) (booking_table vw)))
     pl).
Proof.
  revert vw. induction l as [|b l IH]; intros vw; cbn [deactivate_all].
  - run. cbn [listed existsb]. rewrite map_id. destruct vw; reflexivity.
  - run. rewrite IH. unfold with_bookings.
    cbn [booking_table book_table user_table booking_id_seq].
    rewrite map_map. do 3 f_equal. apply map_ext. intros x.
    unfold listed. cbn [existsb].
    destruct (Booking.id x =? Booking.id b) eqn:E.
    + rewrite setattr_id. cbn [orb].
      destruct (existsb _ l); reflexivity.
    + cbn [orb]. reflexivity.
Qed.

Lemma same_id_same_row rows a b :
  NoDup (map Booking.id rows) -> In a rows -> In b rows ->
  Booking.id a = Booking.id b -> a = b.
Proof.
  intros Hnd Ha Hb Hid.
  pose proof (find_by_id_unique _ _ Hnd Ha) as Ea.
  pose proof (find_by_id_unique _ _ Hnd Hb) as Eb.
  rewrite Hid in Ea. congruence.
Qed.

Lemma listed_expired now rows x :
  NoDup (map Booking.id rows) -> In x rows ->
  listed (filter (expired now) rows) x = expired now x.
Proof.
  intros Hnd Hin. unfold listed.
  destruct (expired now x) eqn:E.
  - apply existsb_exists. exists x. split.
    + apply filter_In. auto.
    + apply Z.eqb_refl.
  - destruct (existsb _ _) eqn:Ex; [|reflexivity].
    apply existsb_exists in Ex. destruct Ex as [b [Hb Hid]].
    apply filter_In in Hb. destruct Hb as [Hb Hexp].
    apply Z.eqb_eq in Hid.
    rewrite (same_id_same_row rows x b Hnd Hin Hb Hid) in E. congruence.
Qed.

Lemma update_bookings_run db utcnow :
  unique_ids db ->
  with_session (update_bookings utcnow) db no_faults =
  (Return tt,
   with_bookings db (map (sweep_row (utcnow + timedelta 3)) (booking_table db))).
Proof.
  intros Huniq. unfold with_session, update_bookings, no_faults. run.
  rewrite deactivate_all_run. run. do 2 f_equal.
  apply map_ext_in. intros x Hin.
  rewrite (listed_expired _ _ _ Huniq Hin). reflexivity.
Qed.

Lemma sweep_row_id now b : Booking.id (sweep_row now b) = Booking.id b.
Proof. unfold sweep_row. destruct (expired now b); [apply setattr_id | reflexivity]. Qed.

Lemma sweep_row_twice now b : sweep_row now (sweep_row now b) = sweep_row now b.
Proof.
  unfold sweep_row. destruct (expired now b) eqn:E; [|now rewrite E].
  unfold expired. cbn [Booking.setattr Booking.active Booking.end_time Bool.eqb].
  now rewrite andb_false_r.
Qed.

Lemma sweep_row_active now b :
  Booking.active (sweep_row now b)
  = Booking.active b && (now <=? Booking.end_time b).
Proof.
  unfold sweep_row, expired. rewrite Z.leb_antisym.
  destruct b as [i bk u s e a]. cbn [Booking.end_time Booking.active].
  destruct (e <? now), a; reflexivity.
Qed.

Lemma active_split now rows :
  List.length (filter Booking.active rows)
  = (List.length (filter (expired now) rows)
     + List.length (filter (outlasts now) rows))%nat.
Proof.
  induction rows as [|b rows IH]; [reflexivity|].
  cbn [filter]. unfold expired at 1, outlasts at 1. rewrite Z.leb_antisym.
  destruct (Booking.active b), (Booking.end_time b <? now); cbn [andb negb Bool.eqb List.length];
    lia.
Qed.

(** C4. One sweep at the reference instant [now = utcnow + 3 hours] turns
    [active] to false on exactly the rows that were active with
    [end_time < now] and changes no other field of them; rows that are active
    with [end_time >= now], and inactive rows, stay as they are; so of the
    [N + M] active rows the [M] that end later stay active.  A second sweep
    at the same instant changes nothing. *)
Theorem sweep_convergence (db : Database) (utcnow : datetime) :
  unique_ids db ->
  let now := utcnow + timedelta 3 in
  let swept := snd (with_session (update_bookings utcnow) db no_faults) in
  let N := List.length (filter (expired now) (booking_table db)) in
  let M := List.length (filter (outlasts now) (booking_table db)) in
  fst (with_session (update_bookings utcnow) db no_faults) = Return tt
  /\ (forall i b, nth_error (booking_table db) i = Some b ->
        Booking.active b = true -> Booking.end_time b < now ->
        nth_error (booking_table swept) i
        = Some (Booking.mk (Booking.id b) (Booking.book_id b) (Booking.user_id b)
                  (Booking.start_time b) (Booking.end_time b) false))
  /\ (forall i b, nth_error (booking_table db) i = Some b ->
        Booking.active b = true -> now <= Booking.end_time b ->
        nth_error (booking_table swept) i = Some b)
  /\ (forall i b, nth_error (booking_table db) i = Some b ->
        Booking.active b = false ->
        nth_error (booking_table swept) i = Some b)
  /\ List.length (booking_table swept) = List.length (booking_table db)
  /\ book_table swept = book_table db
  /\ user_table swept = user_table db
  /\ booking_id_seq swept = booking_id_seq db
  /\ List.length (filter Booking.active (booking_table db)) = (N + M)%nat
  /\ List.length (filter Booking.active (booking_table swept)) = M
  /\ with_session (update_bookings utcnow) swept no_faults = (Return tt, swept).
Proof.
  intros Huniq now swept N M. subst swept.
  rewrite (update_bookings_run db utcnow Huniq). fold now.
  cbn [fst snd with_bookings booking_table book_table user_table booking_id_seq].
  assert (Hrow : forall i b, nth_error (booking_table db) i = Some b ->
                   nth_error (map (sweep_row now) (booking_table db)) i
                   = Some (sweep_row now b)).
  { intros i b Hi. rewrite nth_error_map, Hi. reflexivity. }
  split; [reflexivity|].
  split.
  { intros i b Hi Hact Hend. rewrite (Hrow i b Hi). unfold sweep_row, expired.
    rewrite Hact. apply Z.ltb_lt in Hend. rewrite Hend. reflexivity. }
  split.
  { intros i b Hi Hact Hend. rewrite (Hrow i b Hi). unfold sweep_row, expired.
    destruct (Z.ltb_spec (Booking.end_time b) now); [lia | reflexivity]. }
  split.
  { intros i b Hi Hact. rewrite (Hrow i b Hi). unfold sweep_row, expired.
    rewrite Hact, andb_false_r. reflexivity. }
  split; [apply List.length_map|].
  do 3 (split; [reflexivity|]).
  split; [apply active_split|].
  split.
  { subst M. clear. induction (booking_table db) as [|b rows IH]; [reflexivity|].
    cbn [map filter]. rewrite sweep_row_active. fold (outlasts now b).
    destruct (outlasts now b); cbn [List.length]; lia. }
  rewrite update_bookings_run.
  - unfold with_bookings. cbn [booking_table book_table user_table booking_id_seq].
    fold now. rewrite map_map.
    rewrite (map_ext (fun b => sweep_row now (sweep_row now b)) (sweep_row now));
      [reflexivity|].
    intros b. apply sweep_row_twice.
  - unfold unique_ids, with_bookings. cbn [booking_table]. rewrite map_map.
    rewrite (map_ext (fun b => Booking.id (sweep_row now b)) Booking.id);
      [exact Huniq|].
    intros b. apply sweep_row_id.
Qed.

Lemma sweep_convergence_witness :
  let swept :=
    mkDatabase
      [Booking.mk 1 7 3 1000 1200 false;
       Booking.mk 2 7 5 1200 (timedelta 4) true;
       Booking.mk 3 8 5 1000 1100 false;
       Booking.mk 4 8 3 2000 (timedelta 3) true]
      [7; 8] [3; 5] 5 in
  snd (with_session (update_bookings 0) reading_room no_faults) = swept
  /\ with_session (update_bookings 0) swept no_faults = (Return tt, swept).
Proof.
  assert (Huniq : unique_ids reading_room).
  { unfold unique_ids. cbn. repeat constructor; cbn; intuition lia. }
  destruct (sweep_convergence reading_room 0 Huniq)
    as [_ [_ [_ [_ [_ [_ [_ [_ [_ [_ Hagain]]]]]]]]]].
  assert (E : snd (with_session (update_bookings 0) reading_room no_faults)
              = mkDatabase
                  [Booking.mk 1 7 3 1000 1200 false;
                   Booking.mk 2 7 5 1200 (timedelta 4) true;
                   Booking.mk 3 8 5 1000 1100 false;
                   Booking.mk 4 8 3 2000 (timedelta 3) true]
                  [7; 8] [3; 5] 5)
    by (vm_compute; reflexivity).
  cbn zeta. rewrite E in Hagain. split; [exact E | exact Hagain].
Defined.

(** The reference instant runs three hours ahead of the clock: booking 1 of
    [reading_room] ends after [utcnow = 0] and is swept all the same. *)
Remark sweep_reference_runs_ahead :
  let b := Booking.mk 1 7 3 1000 1200 true in
  In b (booking_table reading_room)
  /\ 0 < Booking.end_time b
  /\ In (Booking.mk 1 7 3 1000 1200 false)
       (booking_table (snd (with_session (update_bookings 0) reading_room no_faults))).
Proof.
  cbn zeta. split; [cbn; auto|]. split; [cbn; lia|].
  vm_compute. auto.
Qed.

#[local] Hint Rewrite setattr_all_run deactivate_all_run : run.

Ltac split_run :=
  run;
  match goal with
  | |- context [match hd None ?p with _ => _ end] => destruct (hd None p) eqn:?
  | |- context [match find ?f ?l with _ => _ end] => destruct (find f l) eqn:?
  | |- context [if ?c then _ else _] => destruct c eqn:?
  end.

(** The session ended without a commit: nothing is stored, nothing returned. *)
Ltac unchanged :=
  let H := fresh in
  intros H; injection H as <- <-; left; split;
  [reflexivity | intros ? ?; discriminate].

Lemma update_booking_cases db plan pk obj_in out db' :
  with_session (update_booking pk obj_in) db plan = (out, db') ->
  (db' = db /\ forall b, out <> Return b)
  \/ exists old,
       find (by_id pk) (booking_table db) = Some old
       /\ BookingUpdate.start_time obj_in < BookingUpdate.end_time obj_in
       /\ find (CRUDBooking.update_filter old (BookingUpdate.start_time obj_in)
                  (BookingUpdate.end_time obj_in)) (booking_table db) = None
       /\ db' = with_bookings db
                    (rewrite_rows pk (apply_items (BookingUpdate.dict_exclude_unset obj_in))
                       (booking_table db))
       /\ (forall b, out = Return b ->
             b = apply_items (BookingUpdate.dict_exclude_unset obj_in) old).
Proof.
  unfold with_session, update_booking, CRUDBooking.get, CRUDBooking.update,
    CRUDBooking.select_booking, CRUDBooking.select_book, CRUDBooking.select_user,
    datetime_or, datetime_bool.
  cbn [andb orb].
  repeat split_run; run; try unchanged.
  all: match goal with
       | E : find (by_id _) _ = Some ?t |- _ =>
         pose proof (find_by_id_some _ _ _ E) as [_ Hid]; rewrite Hid in *
       end.
  all: match goal with
       | E : (_ >=? _) = false |- _ => rewrite Z.geb_leb in E; apply Z.leb_gt in E
       end.
  all: try match goal with
       | E : find (by_id _) (booking_table (with_bookings _ _)) = _ |- _ =>
         unfold with_bookings in E; cbn [booking_table] in E;
         rewrite find_rewrite_rows in E by (intros; apply apply_items_id)
       end.
  all: let H := fresh in
       intros H; injection H as <- <-; right;
       match goal with |- exists old, Some ?t = _ /\ _ => exists t end;
       repeat split; try assumption; try (intros ? ?; discriminate).
  intros b Hb. injection Hb as <-.
  match goal with
  | E1 : find (by_id _) _ = Some ?t, E2 : option_map _ _ = Some _ |- _ =>
    rewrite E1 in E2; cbn in E2; now injection E2 as <-
  end.
Qed.

(** C7. When [update_booking] succeeds, the stored row of that id carries
    the payload's value in every field the request supplied, and its prior
    value in every field it did not supply.  The schema lets only [active]
    be left out: a request without [active] leaves the row's [active] as it
    was, whatever the default of the schema is, and a request with [active]
    writes it; [id] is never written.  Rows of another id are kept. *)
Theorem update_changes_only_supplied_fields (db : Database)
    (plan : list (option string)) (booking_id : Z) (booking_in : BookingUpdate.t)
    (b' : Booking.t) (db' : Database) :
  with_session (update_booking booking_id booking_in) db plan = (Return b', db') ->
  exists old,
    find (by_id booking_id) (booking_table db) = Some old
    /\ find (by_id booking_id) (booking_table db') = Some b'
    /\ (forall f v, field_supplied booking_in f = true ->
                    field_payload booking_in f = Some v ->
                    Booking.getattr b' f = v)
    /\ (forall f, field_supplied booking_in f = false ->
                  Booking.getattr b' f = Booking.getattr old f)
    /\ (BookingUpdate.active_set booking_in = false ->
        Booking.active b' = Booking.active old)
    /\ (BookingUpdate.active_set booking_in = true ->
        Booking.active b' = BookingUpdate.active booking_in)
    /\ Booking.id b' = Booking.id old
    /\ (forall x, In x (booking_table db) -> Booking.id x <> booking_id ->
                  In x (booking_table db')).
Proof.
  intros Hrun.
  destruct (update_booking_cases _ _ _ _ _ _ Hrun)
    as [[_ Hnot] | [old [Hold [_ [_ [Hdb Hout]]]]]].
  { exfalso. now apply (Hnot b'). }
  specialize (Hout b' eq_refl).
  exists old. split; [assumption|]. split.
  { rewrite Hdb. unfold with_bookings. cbn [booking_table].
    rewrite find_rewrite_rows by (intros; apply apply_items_id).
    rewrite Hold, Hout. reflexivity. }
  assert (Hrow : b' = Booking.mk (Booking.id old) (BookingUpdate.book_id booking_in)
                        (BookingUpdate.user_id booking_in)
                        (BookingUpdate.start_time booking_in)
                        (BookingUpdate.end_time booking_in)
                        (if BookingUpdate.active_set booking_in
                         then BookingUpdate.active booking_in
                         else Booking.active old)).
  { rewrite Hout. unfold BookingUpdate.dict_exclude_unset.
    destruct (BookingUpdate.active_set booking_in); reflexivity. }
  split; [|split; [|split; [|split; [|split]]]].
  - intros f v Hsup Hval. rewrite Hrow.
    destruct f; cbn in Hsup, Hval; try discriminate;
      injection Hval as <-; cbn; try reflexivity.
    now rewrite Hsup.
  - intros f Hsup. rewrite Hrow.
    destruct f; cbn in Hsup; try discriminate; cbn; [reflexivity|].
    now rewrite Hsup.
  - intros Hset. rewrite Hrow. cbn. now rewrite Hset.
  - intros Hset. rewrite Hrow. cbn. now rewrite Hset.
  - rewrite Hrow. reflexivity.
  - intros x Hx Hne. rewrite Hdb. unfold with_bookings. cbn [booking_table].
    now apply rewrite_rows_other.
Qed.

(** On [shelved] the stored booking is inactive and the request leaves
    [active] out, while the schema's default for it is [True]: the row moves
    to book 8 and stays inactive. *)
Lemma update_changes_only_supplied_fields_witness :
  let request := BookingUpdate.mk 8 5 1100 1300 true false in
  let b' := Booking.mk 1 8 5 1100 1300 false in
  with_session (update_booking 1 request) shelved no_faults
  = (Return b', mkDatabase [b'] [7; 8] [3; 5] 2)
  /\ exists old,
       find (by_id 1) (booking_table shelved) = Some old
       /\ Booking.active old = false
       /\ Booking.active b' = Booking.active old
       /\ Booking.getattr b' F_id = Booking.getattr old F_id
       /\ Booking.getattr b' F_book_id = VInt 8.
Proof.
  intros request b'.
  assert (E : with_session (update_booking 1 request) shelved no_faults
              = (Return b', mkDatabase [b'] [7; 8] [3; 5] 2))
    by (vm_compute; reflexivity).
  split; [exact E|].
  destruct (update_changes_only_supplied_fields _ _ _ _ _ _ E)
    as [old [Hold [_ [Hset [Hkeep [Hactive _]]]]]].
  exists old. split; [exact Hold|].
  split.
  - vm_compute in Hold. injection Hold as <-. reflexivity.
  - split; [apply Hactive; reflexivity|].
    split; [apply Hkeep; reflexivity|].
    apply Hset; reflexivity.
Defined.

(** * Outcomes at the HTTP boundary *)

(** C8 at a failing input.  In [library] no booking has id 9.  [read_booking],
    [cancel_booking] and [delete_booking] raise [HTTPException(404)] inside
    their own [try], and the [except Exception] around it turns it into
    status 500, the status a failing storage round trip gets as well;
    [update_booking] answers 400 to a missing booking, to a conflict, to an
    ordering violation and to a storage failure alike.  The outcomes differ
    in the [detail] text only. *)
Theorem not_found_surfaces_with_the_storage_error_status :
  with_session (read_booking 9) library no_faults
  = (Raise (HTTPException 500 "404: Booking not found"), library)
  /\ with_session (read_booking 9) library [Some "connection lost"%string]
     = (Raise (HTTPException 500 "Database error occurred: connection lost"), library)
  /\ with_session (cancel_booking 500 9) library no_faults
     = (Raise (HTTPException 500 "404: Booking not found"), library)
  /\ with_session (cancel_booking 500 9) library [Some "connection lost"%string]
     = (Raise (HTTPException 500 "Database error occurred: connection lost"), library)
  /\ with_session (delete_booking 9) library no_faults
     = (Raise (HTTPException 500 "404: Booking not found"), library)
  /\ with_session (delete_booking 9) library [Some "connection lost"%string]
     = (Raise (HTTPException 500 "Database error occurred: connection lost"), library)
  /\ with_session (update_booking 9 (BookingUpdate.mk 7 3 1000 1200 true false))
       library no_faults
     = (Raise (HTTPException 400 "404: Booking not found"), library)
  /\ with_session (update_booking 1 (BookingUpdate.mk 7 3 1300 1200 true false))
       library no_faults
     = (Raise (HTTPException 400
                 "Validation error: Start time must be before end time"), library)
  /\ with_session (update_booking 1 (BookingUpdate.mk 7 3 1000 1200 true false))
       library [Some "connection lost"%string]
     = (Raise (HTTPException 400 "Database error occurred: connection lost"), library)
  /\ with_session (create_booking (BookingCreate.mk 7 5 1100 1300 true)) library
       no_faults
     = (Raise (HTTPException 400
                 "400: Book is already booked in the specified period"), library).
Proof. repeat split; vm_compute; reflexivity. Qed.

(** * Storage failures *)

(** C9, as stated, fails: when the [refresh] that follows the commit of
    [create] fails, the call raises the storage error although the new row
    is stored. *)
Lemma refresh_failure_leaves_committed_row :
  let plan := [None; None; None; None; Some "connection lost"%string] in
  let result :=
    with_session (crud_call (Create (BookingCreate.mk 7 5 1200 1400 true))) library plan in
  result
  = (Raise (Exception "Database error occurred: connection lost"),
     mkDatabase [Booking.mk 1 7 3 1000 1200 true; Booking.mk 2 7 5 1200 1400 true]
       [7; 8] [3; 5] 3)
  /\ snd result <> library.
Proof.
  cbn zeta. split; [vm_compute; reflexivity|].
  vm_compute. intros H. discriminate H.
Qed.

(** The run is over: nothing was stored, and the outcome is the storage
    error or that of the run without failures. *)
Ltac settled :=
  let H := fresh in
  intros H; injection H as <- <-;
  split;
  [ reflexivity
  | first [ left; reflexivity
          | right; lazymatch goal with |- (_, _) = (_, _) => reflexivity end ] ].

Ltac walk := run; first [settled | split_run; walk].

(** C9, amended.  Let the [k]-th storage round trip of a [create], [update],
    [cancel] or [remove] be the first to fail, [k] being at most the position
    of the commit.  Then the stored state is exactly what it was, and the
    call either raises the storage error, or it ended before that round trip
    and behaves as it does without failures. *)
Theorem failure_until_commit_is_atomic (c : CrudCall) (db : Database) (k : nat)
    (msg : string) (rest : list (option string)) :
  (k <= commit_index c)%nat ->
  let plan := repeat None k ++ Some msg :: rest in
  let result := with_session (crud_call c) db plan in
  snd result = db
  /\ (fst result = Raise (Exception ("Database error occurred: " ++ msg)%string)
      \/ result = with_session (crud_call c) db no_faults).
Proof.
  intros Hk plan result. subst result.
  destruct (with_session (crud_call c) db plan) as [out db'] eqn:E.
  cbn [fst snd]. revert E. subst plan.
  destruct c as [obj_in | db_obj obj_in | utcnow pk | pk]; cbn [commit_index] in Hk;
    cbn [crud_call];
    unfold with_session, no_faults, CRUDBooking.create, CRUDBooking.update,
      CRUDBooking.cancel, CRUDBooking.remove,
      CRUDBooking.select_booking, CRUDBooking.select_book, CRUDBooking.select_user,
      datetime_or, datetime_bool;
    cbn [andb orb].
  - destruct k as [|[|[|[|k]]]]; [| | | |lia]; cbn [repeat app];
      walk.
  - destruct k as [|[|[|[|k]]]]; [| | | |lia]; cbn [repeat app];
      walk.
  - destruct k as [|[|k]]; [| |lia]; cbn [repeat app];
      walk.
  - destruct k as [|[|k]]; [| |lia]; cbn [repeat app];
      walk.
Qed.

Lemma failure_until_commit_is_atomic_witness :
  with_session (CRUDBooking.create adjacent_request) library
    [None; None; None; Some "connection lost"%string]
  = (Raise (Exception "Database error occurred: connection lost"), library).
Proof.
  assert (Hk : (3 <= commit_index (Create adjacent_request))%nat) by (cbn; lia).
  destruct (failure_until_commit_is_atomic (Create adjacent_request) library 3
              "connection lost" [] Hk) as [Hdb _].
  cbn [crud_call repeat app] in Hdb.
  assert (Hout : fst (with_session (CRUDBooking.create adjacent_request) library
                        [None; None; None; Some "connection lost"%string])
                 = Raise (Exception "Database error occurred: connection lost"))
    by (vm_compute; reflexivity).
  destruct (with_session _ _ _) as [out db'].
  cbn [fst snd] in *. now rewrite Hdb, Hout.
Defined.

(** * The non-overlap invariant *)

(** ** What an operation can leave stored *)

Lemma create_booking_cases db plan booking_in out db' :
  with_session (create_booking booking_in) db plan = (out, db') ->
  db' = db
  \/ (find (CRUDBooking.create_filter booking_in) (booking_table db) = None
      /\ db' = inserted db booking_in).
Proof.
  unfold with_session, create_booking, CRUDBooking.create,
    CRUDBooking.select_book, CRUDBooking.select_user.
  repeat split_run; run.
  all: let H := fresh in
       intros H; injection H as <- <-;
       first [left; reflexivity | right; split; reflexivity].
Qed.

Lemma cancel_rows db pk utcnow :
  with_bookings
    (with_bookings db
       (map (fun b => if Booking.id b =? pk
                      then Booking.setattr b (Set_active false) else b)
          (booking_table db)))
    (map (fun b => if Booking.id b =? pk
                   then Booking.setattr b (Set_end_time (utcnow + timedelta 3)) else b)
       (map (fun b => if Booking.id b =? pk
                      then Booking.setattr b (Set_active false) else b)
          (booking_table db)))
  = with_bookings db (rewrite_rows pk (cancelled utcnow) (booking_table db)).
Proof.
  unfold with_bookings, rewrite_rows.
  cbn [booking_table book_table user_table booking_id_seq].
  rewrite map_map. f_equal. apply map_ext. intros b.
  destruct (Booking.id b =? pk) eqn:E.
  - rewrite setattr_id, E. reflexivity.
  - rewrite E. reflexivity.
Qed.

Lemma cancel_booking_cases db plan utcnow pk out db' :
  with_session (cancel_booking utcnow pk) db plan = (out, db') ->
  db' = db
  \/ db' = with_bookings db (rewrite_rows pk (cancelled utcnow) (booking_table db)).
Proof.
  unfold with_session, cancel_booking, CRUDBooking.cancel, CRUDBooking.select_booking.
  repeat split_run; run.
  all: try match goal with
       | E : find (by_id _) _ = Some ?t |- _ =>
         pose proof (find_by_id_some _ _ _ E) as [_ Hid]; rewrite Hid in *
       end.
  all: let H := fresh in intros H; injection H as <- <-.
  all: try (left; reflexivity).
  all: right; apply cancel_rows.
Qed.

Lemma delete_booking_cases db plan pk out db' :
  with_session (delete_booking pk) db plan = (out, db') ->
  db' = db
  \/ db' = with_bookings db (filter (fun b => negb (Booking.id b =? pk)) (booking_table db)).
Proof.
  unfold with_session, delete_booking, CRUDBooking.remove, CRUDBooking.select_booking.
  repeat split_run; run.
  all: try match goal with
       | E : find (by_id _) _ = Some ?t |- _ =>
         pose proof (find_by_id_some _ _ _ E) as [_ Hid]; rewrite Hid in *
       end.
  all: let H := fresh in intros H; injection H as <- <-.
  all: first [left; reflexivity | right; reflexivity].
Qed.

Lemma update_bookings_cases db plan utcnow out db' :
  with_session (update_bookings utcnow) db plan = (out, db') ->
  db' = db
  \/ db' = with_bookings db
             (map (fun x =>
                     if listed (filter (expired (utcnow + timedelta 3)) (booking_table db)) x
                     then deactivate x else x)
                (booking_table db)).
Proof.
  unfold with_session, update_bookings.
  repeat split_run; run.
  all: let H := fresh in intros H; injection H as <- <-.
  all: first [left; reflexivity | right; reflexivity].
Qed.

(** ** Transformations of the table that keep the invariants *)

Lemma in_rewrite_rows pk f rows x :
  In x (rewrite_rows pk f rows) ->
  exists y, In y rows /\ x = (if Booking.id y =? pk then f y else y).
Proof.
  unfold rewrite_rows. intros H. apply in_map_iff in H.
  destruct H as [y [Hy Hin]]. exists y. auto.
Qed.

(** Deleting rows keeps the primary keys unique. *)
Lemma filter_keeps_unique_ids keep rows :
  NoDup (map Booking.id rows) -> NoDup (map Booking.id (filter keep rows)).
Proof.
  intros Hnd. induction rows as [|r rows IH]; [constructor|].
  cbn in Hnd. inversion Hnd as [|? ? Hnotin Hnd']; subst.
  cbn [filter]. destruct (keep r); [|now apply IH].
  cbn [map]. constructor; [|now apply IH].
  intros Hin. apply Hnotin. apply in_map_iff in Hin.
  destruct Hin as [x [Hx Hin]]. apply filter_In in Hin.
  apply in_map_iff. exists x. tauto.
Qed.

Lemma wf_inserted db obj_in : wf db -> wf (inserted db obj_in).
Proof.
  intros [Huniq Hfresh]. split.
  - unfold unique_ids, inserted. cbn [booking_table].
    rewrite map_app. cbn [map new_row Booking.id].
    apply NoDup_app; [exact Huniq | repeat constructor; intros [] |].
    intros k Hk [<- | []]. apply in_map_iff in Hk.
    destruct Hk as [b [Hb Hin]]. apply Hfresh in Hin. lia.
  - intros b Hin. unfold inserted in *. cbn [booking_table booking_id_seq] in *.
    apply in_app_or in Hin. destruct Hin as [Hin | [<- | []]].
    + apply Hfresh in Hin. lia.
    + cbn. lia.
Qed.

Lemma wf_map db g :
  (forall b, Booking.id (g b) = Booking.id b) ->
  wf db -> wf (with_bookings db (map g (booking_table db))).
Proof.
  intros Hg [Huniq Hfresh]. split.
  - unfold unique_ids, with_bookings. cbn [booking_table]. rewrite map_map.
    rewrite (map_ext (fun b => Booking.id (g b)) Booking.id Hg). exact Huniq.
  - intros b Hin. unfold with_bookings in *. cbn [booking_table booking_id_seq] in *.
    apply in_map_iff in Hin. destruct Hin as [x [<- Hx]]. rewrite Hg. now apply Hfresh.
Qed.

Lemma wf_filter db p :
  wf db -> wf (with_bookings db (filter p (booking_table db))).
Proof.
  intros [Huniq Hfresh]. split.
  - unfold unique_ids, with_bookings. cbn [booking_table].
    now apply filter_keeps_unique_ids.
  - intros b Hin. unfold with_bookings in *. cbn [booking_table booking_id_seq] in *.
    apply filter_In in Hin. now apply Hfresh.
Qed.




Lemma apply_items_payload obj_in old :
  apply_items (BookingUpdate.dict_exclude_unset obj_in) old
  = Booking.mk (Booking.id old) (BookingUpdate.book_id obj_in)
      (BookingUpdate.user_id obj_in) (BookingUpdate.start_time obj_in)
      (BookingUpdate.end_time obj_in)
      (if BookingUpdate.active_set obj_in then BookingUpdate.active obj_in
       else Booking.active old).
Proof.
  unfold BookingUpdate.dict_exclude_unset.
  destruct (BookingUpdate.active_set obj_in); reflexivity.
Qed.



(** ** One operation, then a history *)



(** C1 at a failing input.  [two_books] satisfies the invariant (and the
    primary-key discipline).  Updating booking 2 onto book 7 succeeds,
    because [update] looks for overlaps among the bookings of the book the
    row had before ([db_obj.book_id]), not of the book it is given; after it
    two active bookings of book 7 cover the same hours. *)
Theorem update_to_another_book_breaks_non_overlap :
  wf two_books
  /\ non_overlap two_books
  /\ with_session (update_booking 2 move_request) two_books no_faults
     = (Return (Booking.mk 2 7 5 1000 1200 true),
        mkDatabase
          [Booking.mk 1 7 3 1000 1200 true; Booking.mk 2 7 5 1000 1200 true]
          [7; 8] [3; 5] 3)
  /\ ~ non_overlap (perform (OpUpdate 2 move_request) no_faults two_books).
Proof.
  split; [|split; [|split]].
  - split.
    + unfold unique_ids. cbn. repeat constructor; cbn; intuition lia.
    + intros b [<- | [<- | []]]; cbn; lia.
  - intros a b Ha Hb Hid _ _ Hbook.
    destruct Ha as [<- | [<- | []]]; destruct Hb as [<- | [<- | []]];
      cbn in Hid, Hbook; congruence.
  - vm_compute. reflexivity.
  - intros Hinv.
    assert (E : perform (OpUpdate 2 move_request) no_faults two_books
                = mkDatabase
                    [Booking.mk 1 7 3 1000 1200 true; Booking.mk 2 7 5 1000 1200 true]
                    [7; 8] [3; 5] 3)
      by (vm_compute; reflexivity).
    rewrite E in Hinv.
    apply (Hinv (Booking.mk 1 7 3 1000 1200 true) (Booking.mk 2 7 5 1000 1200 true));
      cbn; try tauto; try reflexivity; try lia.
    unfold overlaps; cbn; lia.
Qed.

(** * Lookups after writes *)

Lemma booking_table_with d rows : booking_table (with_bookings d rows) = rows.
Proof. reflexivity. Qed.

Lemma get_run db pk plan :
  with_session (CRUDBooking.get pk) db plan =
  match hd None plan with
  | Some msg => (Raise (Exception ("Database error occurred: " ++ msg)%string), db)
  | None => (Return (find (by_id pk) (booking_table db)), db)
  end.
Proof.
  unfold with_session, CRUDBooking.get, CRUDBooking.select_booking. run.
  destruct (hd None plan); run; reflexivity.
Qed.

Lemma create_success db plan obj_in b db' :
  with_session (CRUDBooking.create obj_in) db plan = (Return (Some b), db') ->
  BookingCreate.start_time obj_in < BookingCreate.end_time obj_in
  /\ find (CRUDBooking.create_filter obj_in) (booking_table db) = None
  /\ db' = inserted db obj_in
  /\ find (by_id (booking_id_seq db)) (booking_table db') = Some b.
Proof.
  unfold with_session, CRUDBooking.create, CRUDBooking.select_book,
    CRUDBooking.select_user.
  repeat split_run; run.
  all: let H := fresh in intros H; try discriminate H; injection H as <- <-.
  match goal with
  | E : (_ >=? _) = false |- _ => rewrite Z.geb_leb in E; apply Z.leb_gt in E
  end.
  repeat split; assumption.
Qed.

Lemma find_app_last {A} (f : A -> bool) l x :
  find f (l ++ [x])
  = match find f l with
    | Some y => Some y
    | None => if f x then Some x else None
    end.
Proof.
  induction l as [|a l IH]; cbn; [reflexivity|].
  destruct (f a); [reflexivity | exact IH].
Qed.

Lemma fresh_ids_not_serial db :
  fresh_ids db -> find (by_id (booking_id_seq db)) (booking_table db) = None.
Proof.
  intros Hfresh. apply find_by_id_none. intros b Hin. apply Hfresh in Hin. lia.
Qed.

(** X1. A booking that [create] has returned is found by [get] under its id,
    as it was returned, and the new id is the old value of the serial;
    [get] of any other id answers as it did before the insertion. *)
Theorem create_then_get (db : Database) (plan : list (option string))
    (obj_in : BookingCreate.t) (b : Booking.t) (db' : Database) :
  fresh_ids db ->
  with_session (CRUDBooking.create obj_in) db plan = (Return (Some b), db') ->
  Booking.id b = booking_id_seq db
  /\ with_session (CRUDBooking.get (Booking.id b)) db' no_faults = (Return (Some b), db')
  /\ (forall pk, pk <> Booking.id b ->
        fst (with_session (CRUDBooking.get pk) db' no_faults)
        = fst (with_session (CRUDBooking.get pk) db no_faults)).
Proof.
  intros Hfresh Hrun.
  destruct (create_success _ _ _ _ _ Hrun) as [_ [_ [Hdb Hfind]]].
  pose proof (find_by_id_some _ _ _ Hfind) as [_ Hid].
  split; [exact Hid|]. rewrite Hid. split.
  - rewrite get_run. cbn [no_faults hd]. rewrite Hfind. reflexivity.
  - intros pk Hpk. rewrite !get_run. cbn [no_faults hd fst]. f_equal.
    rewrite Hdb. unfold inserted. cbn [booking_table].
    rewrite find_app_last.
    destruct (find (by_id pk) (booking_table db)); [reflexivity|].
    unfold by_id, new_row. cbn [Booking.id].
    destruct (Z.eqb_spec (booking_id_seq db) pk); [congruence | reflexivity].
Qed.

Lemma create_then_get_witness :
  with_session (CRUDBooking.get 2)
    (mkDatabase [Booking.mk 1 7 3 1000 1200 true; Booking.mk 2 7 5 1200 1400 true]
       [7; 8] [3; 5] 3) no_faults
  = (Return (Some (Booking.mk 2 7 5 1200 1400 true)),
     mkDatabase [Booking.mk 1 7 3 1000 1200 true; Booking.mk 2 7 5 1200 1400 true]
       [7; 8] [3; 5] 3).
Proof.
  assert (Hfresh : fresh_ids library).
  { intros b [<- | []]. cbn. lia. }
  assert (Hrun : with_session (CRUDBooking.create adjacent_request) library no_faults
                 = (Return (Some (Booking.mk 2 7 5 1200 1400 true)),
                    mkDatabase
                      [Booking.mk 1 7 3 1000 1200 true; Booking.mk 2 7 5 1200 1400 true]
                      [7; 8] [3; 5] 3))
    by (vm_compute; reflexivity).
  destruct (create_then_get _ _ _ _ _ Hfresh Hrun) as [_ [Hget _]].
  exact Hget.
Defined.

(** * [remove] *)

Lemma remove_run db pk :
  with_session (CRUDBooking.remove pk) db no_faults =
  match find (by_id pk) (booking_table db) with
  | None => (Return None, db)
  | Some b =>
    (Return (Some b),
     with_bookings db (filter (fun x => negb (Booking.id x =? pk)) (booking_table db)))
  end.
Proof.
  unfold with_session, CRUDBooking.remove, CRUDBooking.select_booking, no_faults. run.
  destruct (find (by_id pk) (booking_table db)) as [b|] eqn:E; run; [|reflexivity].
  pose proof (find_by_id_some _ _ _ E) as [_ Hid]. rewrite Hid. reflexivity.
Qed.

Lemma find_by_id_removed pk rows :
  find (by_id pk) (filter (fun x => negb (Booking.id x =? pk)) rows) = None.
Proof.
  apply find_by_id_none. intros b Hin. apply filter_In in Hin.
  destruct Hin as [_ Hne]. apply negb_true_iff in Hne. now apply Z.eqb_neq.
Qed.

(** X2. [remove] returns the stored row of the given id, or [None] when
    there is none and then stores nothing.  After it no row has that id:
    [get] answers [None] and a second [remove] answers [None] and changes
    nothing.  Rows of other ids, the other tables and the serial are kept. *)
Theorem remove_then_get (db : Database) (pk : Z) :
  let result := with_session (CRUDBooking.remove pk) db no_faults in
  let db' := snd result in
  fst result = Return (find (by_id pk) (booking_table db))
  /\ with_session (CRUDBooking.get pk) db' no_faults = (Return None, db')
  /\ with_session (CRUDBooking.remove pk) db' no_faults = (Return None, db')
  /\ (forall x, Booking.id x <> pk ->
        (In x (booking_table db') <-> In x (booking_table db)))
  /\ (find (by_id pk) (booking_table db) = None -> db' = db)
  /\ book_table db' = book_table db
  /\ user_table db' = user_table db
  /\ booking_id_seq db' = booking_id_seq db.
Proof.
  intros result db'. subst db' result. rewrite remove_run.
  destruct (find (by_id pk) (booking_table db)) as [b|] eqn:E; cbn [fst snd].
  - split; [reflexivity|].
    rewrite get_run, remove_run. cbn [no_faults hd].
    rewrite !booking_table_with, find_by_id_removed.
    repeat split; try discriminate.
    + intros Hin. apply filter_In in Hin. tauto.
    + intros Hin. apply filter_In. split; [assumption|].
      apply negb_true_iff. now apply Z.eqb_neq.
  - rewrite get_run, remove_run. cbn [no_faults hd]. rewrite E.
    repeat split; tauto.
Qed.

(** * [update] when no round trip fails *)

Lemma update_filter_blocks db_obj obj_in b :
  CRUDBooking.update_filter db_obj (BookingUpdate.start_time obj_in)
    (BookingUpdate.end_time obj_in) b = true
  <-> update_blocks db_obj obj_in b.
Proof.
  unfold CRUDBooking.update_filter, update_blocks, overlaps.
  rewrite !andb_true_iff, negb_true_iff, Z.eqb_eq, Z.eqb_neq, Z.gtb_gt, Z.ltb_lt,
    eqb_true_iff.
  tauto.
Qed.

Lemma update_run db db_obj obj_in :
  BookingUpdate.start_time obj_in < BookingUpdate.end_time obj_in ->
  In (BookingUpdate.book_id obj_in) (book_table db) ->
  In (BookingUpdate.user_id obj_in) (user_table db) ->
  with_session (CRUDBooking.update db_obj obj_in) db no_faults =
  match find (CRUDBooking.update_filter db_obj (BookingUpdate.start_time obj_in)
                (BookingUpdate.end_time obj_in)) (booking_table db) with
  | Some _ => (Return None, db)
  | None =>
    match find (by_id (Booking.id db_obj)) (booking_table db) with
    | Some old =>
      (Return (Some (apply_items (BookingUpdate.dict_exclude_unset obj_in) old)),
       updated db (Booking.id db_obj) obj_in)
    | None =>
      (Raise (Exception "Database error occurred: Could not refresh instance"),
       updated db (Booking.id db_obj) obj_in)
    end
  end.
Proof.
  intros Hlt Hbook Huser.
  unfold with_session, CRUDBooking.update, no_faults, datetime_or, datetime_bool.
  cbn [andb orb]. run.
  destruct (Z.geb_spec (BookingUpdate.start_time obj_in) (BookingUpdate.end_time obj_in));
    [lia|].
  run.
  apply find_key_in in Hbook. destruct Hbook as [k Hk].
  unfold CRUDBooking.select_book. rewrite Hk. run.
  apply find_key_in in Huser. destruct Huser as [k' Hk'].
  unfold CRUDBooking.select_user. rewrite Hk'. run.
  destruct (find (CRUDBooking.update_filter _ _ _) (booking_table db)); run;
    [reflexivity|].
  rewrite booking_table_with.
  rewrite find_rewrite_rows by (intros; apply apply_items_id).
  destruct (find (by_id (Booking.id db_obj)) (booking_table db)); cbn [option_map]; run;
    reflexivity.
Qed.

(** X3. For an [update] of a stored booking with [start_time < end_time] in
    the payload and an existing book and user, the conflict outcome [None]
    is returned exactly when another stored booking (another id) of the book
    the row is on is active and overlaps the payload's half-open interval;
    nothing is stored then.  Otherwise the payload is applied and stored.
    The row itself never counts: when it is the only stored booking, every
    such update goes through. *)
Theorem update_conflict_iff_other_overlap (db : Database) (db_obj : Booking.t)
    (obj_in : BookingUpdate.t) :
  find (by_id (Booking.id db_obj)) (booking_table db) = Some db_obj ->
  BookingUpdate.start_time obj_in < BookingUpdate.end_time obj_in ->
  In (BookingUpdate.book_id obj_in) (book_table db) ->
  In (BookingUpdate.user_id obj_in) (user_table db) ->
  let result := with_session (CRUDBooking.update db_obj obj_in) db no_faults in
  let conflict := exists b, In b (booking_table db) /\ update_blocks db_obj obj_in b in
  let applied :=
    (Return (Some (apply_items (BookingUpdate.dict_exclude_unset obj_in) db_obj)),
     updated db (Booking.id db_obj) obj_in) in
  (fst result = Return None <-> conflict)
  /\ (conflict -> result = (Return None, db))
  /\ (~ conflict -> result = applied)
  /\ (booking_table db = [db_obj] -> result = applied).
Proof.
  intros Hstored Hlt Hbook Huser result conflict applied.
  subst result applied. rewrite update_run by assumption. rewrite Hstored.
  destruct (find (CRUDBooking.update_filter _ _ _) (booking_table db)) as [b|] eqn:E.
  - apply find_some in E. destruct E as [Hin Hb]. apply update_filter_blocks in Hb.
    assert (Hc : conflict) by (exists b; auto).
    repeat split; auto; try tauto.
    intros Htable. rewrite Htable in Hin. destruct Hin as [<- | []].
    destruct Hb as [_ [Hne _]]. now contradiction Hne.
  - assert (Hc : ~ conflict).
    { intros [b [Hin Hb]]. apply update_filter_blocks in Hb.
      pose proof (find_none _ _ E b Hin). congruence. }
    repeat split; auto; try tauto. cbn [fst]. discriminate.
Qed.

Lemma update_conflict_iff_other_overlap_witness :
  with_session
    (CRUDBooking.update (Booking.mk 1 7 3 1000 1200 true)
       (BookingUpdate.mk 7 3 1100 1500 true false)) library no_faults
  = (Return (Some (Booking.mk 1 7 3 1100 1500 true)),
     mkDatabase [Booking.mk 1 7 3 1100 1500 true] [7; 8] [3; 5] 2).
Proof.
  destruct (update_conflict_iff_other_overlap library (Booking.mk 1 7 3 1000 1200 true)
              (BookingUpdate.mk 7 3 1100 1500 true false))
    as [_ [_ [_ Honly]]].
  - reflexivity.
  - cbn; lia.
  - cbn; auto.
  - cbn; auto.
  - rewrite Honly by reflexivity. vm_compute. reflexivity.
Defined.

(** X4. An inactive booking becomes active again through [update]: when the
    payload supplies [active = true] and no other active booking of its book
    overlaps the payload's interval, the stored row is active afterwards. *)
Theorem update_can_reactivate (db : Database) (db_obj : Booking.t)
    (obj_in : BookingUpdate.t) :
  find (by_id (Booking.id db_obj)) (booking_table db) = Some db_obj ->
  Booking.active db_obj = false ->
  BookingUpdate.active_set obj_in = true ->
  BookingUpdate.active obj_in = true ->
  BookingUpdate.start_time obj_in < BookingUpdate.end_time obj_in ->
  In (BookingUpdate.book_id obj_in) (book_table db) ->
  In (BookingUpdate.user_id obj_in) (user_table db) ->
  ~ (exists b, In b (booking_table db) /\ update_blocks db_obj obj_in b) ->
  exists b' db',
    with_session (CRUDBooking.update db_obj obj_in) db no_faults = (Return (Some b'), db')
    /\ find (by_id (Booking.id db_obj)) (booking_table db') = Some b'
    /\ Booking.active b' = true.
Proof.
  intros Hstored Hoff Hset Hon Hlt Hbook Huser Hfree.
  exists (apply_items (BookingUpdate.dict_exclude_unset obj_in) db_obj).
  exists (updated db (Booking.id db_obj) obj_in).
  rewrite update_run by assumption. rewrite Hstored.
  destruct (find (CRUDBooking.update_filter _ _ _) (booking_table db)) as [b|] eqn:E.
  - exfalso. apply Hfree. apply find_some in E. destruct E as [Hin Hb].
    exists b. split; [assumption | now apply update_filter_blocks].
  - split; [reflexivity|]. split.
    + unfold updated. rewrite booking_table_with.
      rewrite find_rewrite_rows by (intros; apply apply_items_id).
      now rewrite Hstored.
    + rewrite apply_items_payload. cbn [Booking.active]. now rewrite Hset.
Qed.

Lemma update_can_reactivate_witness :
  exists b' db',
    with_session
      (CRUDBooking.update (Booking.mk 1 7 3 1000 1200 false)
         (BookingUpdate.mk 7 3 1000 1200 true true)) shelved no_faults
    = (Return (Some b'), db')
    /\ find (by_id 1) (booking_table db') = Some b'
    /\ Booking.active b' = true.
Proof.
  apply (update_can_reactivate shelved (Booking.mk 1 7 3 1000 1200 false)
           (BookingUpdate.mk 7 3 1000 1200 true true)).
  - reflexivity.
  - reflexivity.
  - reflexivity.
  - reflexivity.
  - cbn; lia.
  - cbn; auto.
  - cbn; auto.
  - intros [b [[<- | []] [_ [Hne _]]]]. now apply Hne.
Defined.

(** * Unknown book or user *)

(** X5. A [create] or [update] whose payload has [start_time < end_time]
    raises the validation error for the book when the payload's [book_id] is
    not a stored book, and the one for the user when the book is stored and
    the payload's [user_id] is not a stored user; nothing is stored.  For
    [update] it is the payload's ids that are looked up, not the row's. *)
Theorem unknown_reference_is_validation_error (c : CrudCall) (db : Database)
    (book user : Z) (s e : datetime) :
  payload c = Some (book, user, s, e) ->
  s < e ->
  ~ (In book (book_table db) /\ In user (user_table db)) ->
  with_session (crud_call c) db no_faults
  = (Raise (Exception
              match find (fun k => k =? book) (book_table db) with
              | Some _ => "Validation error: User with given ID does not exist"
              | None => "Validation error: Book with given ID does not exist"
              end), db).
Proof.
  intros Hpay Hlt Hmissing.
  assert (Hfind : forall (l : list Z) k,
             find (fun x => x =? k) l = None \/ In k l).
  { intros l k. destruct (find (fun x => x =? k) l) as [x|] eqn:E; [right | now left].
    apply find_some in E. destruct E as [Hin Hx]. apply Z.eqb_eq in Hx. now subst. }
  destruct c as [obj_in | db_obj obj_in | utcnow pk | pk]; cbn [payload] in Hpay;
    try discriminate; injection Hpay as <- <- <- <-; cbn [crud_call];
    unfold with_session, no_faults, CRUDBooking.create, CRUDBooking.update,
      CRUDBooking.select_book, CRUDBooking.select_user, datetime_bool;
    cbn [andb]; run.
  - destruct (Z.geb_spec (BookingCreate.start_time obj_in) (BookingCreate.end_time obj_in));
      [lia|].
    run.
    destruct (find _ (book_table db)) eqn:Eb; run; [|reflexivity].
    destruct (Hfind (user_table db) (BookingCreate.user_id obj_in)) as [Eu | Hu].
    + rewrite Eu. run. reflexivity.
    + exfalso. apply Hmissing. split; [|assumption].
      apply find_some in Eb. destruct Eb as [Hin Hx]. apply Z.eqb_eq in Hx. now subst.
  - destruct (Z.geb_spec (BookingUpdate.start_time obj_in) (BookingUpdate.end_time obj_in));
      [lia|].
    run.
    destruct (find _ (book_table db)) eqn:Eb; run; [|reflexivity].
    destruct (Hfind (user_table db) (BookingUpdate.user_id obj_in)) as [Eu | Hu].
    + rewrite Eu. run. reflexivity.
    + exfalso. apply Hmissing. split; [|assumption].
      apply find_some in Eb. destruct Eb as [Hin Hx]. apply Z.eqb_eq in Hx. now subst.
Qed.

Lemma unknown_reference_is_validation_error_witness :
  with_session (CRUDBooking.create (BookingCreate.mk 9 3 1000 1200 true)) library no_faults
  = (Raise (Exception "Validation error: Book with given ID does not exist"), library)
  /\ with_session
       (CRUDBooking.update (Booking.mk 1 7 3 1000 1200 true)
          (BookingUpdate.mk 7 4 1000 1200 true false)) library no_faults
     = (Raise (Exception "Validation error: User with given ID does not exist"), library).
Proof.
  split.
  - apply (unknown_reference_is_validation_error
             (Create (BookingCreate.mk 9 3 1000 1200 true)) library 9 3 1000 1200).
    + reflexivity.
    + lia.
    + cbn. intuition lia.
  - apply (unknown_reference_is_validation_error
             (Update (Booking.mk 1 7 3 1000 1200 true)
                (BookingUpdate.mk 7 4 1000 1200 true false)) library 7 4 1000 1200).
    + reflexivity.
    + lia.
    + cbn. intuition lia.
Defined.

(** * The sweep under storage failures *)

(** X6. Whatever round trip fails, one run of the sweeper either returns and
    stores the complete sweep, or raises the storage layer's own error
    (nothing catches it) and stores nothing: no run deactivates only part of
    the expired bookings. *)
Theorem sweep_is_all_or_nothing (db : Database) (utcnow : datetime)
    (plan : list (option string)) :
  unique_ids db ->
  let result := with_session (check_bookings utcnow) db plan in
  result
  = (Return tt, with_bookings db (map (sweep_row (utcnow + timedelta 3)) (booking_table db)))
  \/ exists msg, result = (Raise (SQLAlchemyError msg), db).
Proof.
  intros Huniq result. subst result.
  unfold check_bookings, with_session, update_bookings. run.
  destruct (hd None plan) as [msg|]; run; [right; now exists msg|].
  destruct (hd None (tl plan)) as [msg|]; run; [right; now exists msg|].
  left. do 2 f_equal. apply map_ext_in. intros x Hin.
  rewrite (listed_expired _ _ _ Huniq Hin). reflexivity.
Qed.

Lemma sweep_is_all_or_nothing_witness :
  with_session (check_bookings 0) reading_room [None; Some "connection lost"%string]
  = (Raise (SQLAlchemyError "connection lost"), reading_room).
Proof.
  assert (Huniq : unique_ids reading_room).
  { unfold unique_ids. cbn. repeat constructor; cbn; intuition lia. }
  destruct (sweep_is_all_or_nothing reading_room 0
              [None; Some "connection lost"%string] Huniq) as [H | [msg H]].
  - exfalso. vm_compute in H. discriminate H.
  - rewrite H. vm_compute in H. injection H as <-. reflexivity.
Defined.

(** * Releasing a slot *)

Lemma fresh_ids_map db g :
  (forall b, Booking.id (g b) = Booking.id b) ->
  fresh_ids db -> fresh_ids (with_bookings db (map g (booking_table db))).
Proof.
  intros Hg Hfresh b Hin. rewrite booking_table_with in Hin.
  apply in_map_iff in Hin. destruct Hin as [x [<- Hx]]. rewrite Hg.
  now apply Hfresh.
Qed.

(** X7. When every stored booking that blocks a request has the id that is
    cancelled, the request is accepted after the cancellation: [cancel]
    frees the hours, whatever [end_time] it writes. *)
Theorem cancel_releases_the_slot (db : Database) (utcnow : datetime) (pk : Z)
    (obj_in : BookingCreate.t) :
  BookingCreate.start_time obj_in < BookingCreate.end_time obj_in ->
  In (BookingCreate.book_id obj_in) (book_table db) ->
  In (BookingCreate.user_id obj_in) (user_table db) ->
  fresh_ids db ->
  (forall b, In b (booking_table db) -> blocks obj_in b -> Booking.id b = pk) ->
  let db1 := snd (with_session (CRUDBooking.cancel utcnow pk) db no_faults) in
  with_session (CRUDBooking.create obj_in) db1 no_faults
  = (Return (Some (new_row db1 obj_in)), inserted db1 obj_in).
Proof.
  intros Hlt Hbook Huser Hfresh Honly db1. subst db1. rewrite cancel_run.
  destruct (find (by_id pk) (booking_table db)) as [b|] eqn:E; cbn [snd].
  - apply create_run_insert; try assumption.
    + apply (fresh_ids_map db (fun x => if Booking.id x =? pk then cancelled utcnow x else x));
        [|assumption].
      intros x. destruct (Booking.id x =? pk); reflexivity.
    + intros [x [Hin Hb]]. rewrite booking_table_with in Hin.
      apply in_rewrite_rows in Hin. destruct Hin as [y [Hy ->]].
      destruct (Z.eqb_spec (Booking.id y) pk) as [Ey|Ey].
      * destruct Hb as [_ [Hact _]]. discriminate Hact.
      * apply Ey. now apply Honly.
  - apply create_run_insert; try assumption.
    intros [x [Hin Hb]].
    pose proof (Honly x Hin Hb) as Hid.
    assert (Hex : exists y, find (by_id pk) (booking_table db) = Some y)
      by (apply find_by_id_in; now exists x).
    destruct Hex as [y Hy]. congruence.
Qed.

Lemma cancel_releases_the_slot_witness :
  with_session (CRUDBooking.create (BookingCreate.mk 7 5 1100 1300 true)) library
    no_faults
  = (Return None, library)
  /\ with_session (CRUDBooking.create (BookingCreate.mk 7 5 1100 1300 true))
       (snd (with_session (CRUDBooking.cancel 500 1) library no_faults)) no_faults
     = (Return (Some (Booking.mk 2 7 5 1100 1300 true)),
        mkDatabase
          [Booking.mk 1 7 3 1000 10800000500 false; Booking.mk 2 7 5 1100 1300 true]
          [7; 8] [3; 5] 3).
Proof.
  split; [vm_compute; reflexivity|].
  rewrite (cancel_releases_the_slot library 500 1 (BookingCreate.mk 7 5 1100 1300 true)).
  - vm_compute. reflexivity.
  - cbn; lia.
  - cbn; auto.
  - cbn; auto.
  - intros b [<- | []]. cbn. lia.
  - intros b [<- | []] _. reflexivity.
Defined.

(** X8. When every stored booking that blocks a request is over at the
    sweeper's reference instant, the request is accepted after one sweep. *)
Theorem sweep_releases_expired_slots (db : Database) (utcnow : datetime)
    (obj_in : BookingCreate.t) :
  BookingCreate.start_time obj_in < BookingCreate.end_time obj_in ->
  In (BookingCreate.book_id obj_in) (book_table db) ->
  In (BookingCreate.user_id obj_in) (user_table db) ->
  wf db ->
  (forall b, In b (booking_table db) -> blocks obj_in b ->
             Booking.end_time b < utcnow + timedelta 3) ->
  let db1 := snd (with_session (update_bookings utcnow) db no_faults) in
  with_session (CRUDBooking.create obj_in) db1 no_faults
  = (Return (Some (new_row db1 obj_in)), inserted db1 obj_in).
Proof.
  intros Hlt Hbook Huser [Huniq Hfresh] Hover db1. subst db1.
  rewrite (update_bookings_run db utcnow Huniq). cbn [snd].
  apply create_run_insert; try assumption.
  - apply fresh_ids_map; [apply sweep_row_id | assumption].
  - intros [x [Hin Hb]]. rewrite booking_table_with in Hin.
    apply in_map_iff in Hin. destruct Hin as [y [<- Hy]].
    unfold sweep_row in Hb. destruct (expired (utcnow + timedelta 3) y) eqn:E.
    + destruct Hb as [_ [Hact _]]. discriminate Hact.
    + pose proof (Hover y Hy Hb) as Hend. destruct Hb as [_ [Hact _]].
      unfold expired in E. apply Z.ltb_lt in Hend. rewrite Hend, Hact in E.
      discriminate E.
Qed.

Lemma sweep_releases_expired_slots_witness :
  with_session (CRUDBooking.create (BookingCreate.mk 7 5 1100 1300 true))
    (snd (with_session (update_bookings 0) library no_faults)) no_faults
  = (Return (Some (Booking.mk 2 7 5 1100 1300 true)),
     mkDatabase
       [Booking.mk 1 7 3 1000 1200 false; Booking.mk 2 7 5 1100 1300 true]
       [7; 8] [3; 5] 3).
Proof.
  rewrite (sweep_releases_expired_slots library 0 (BookingCreate.mk 7 5 1100 1300 true)).
  - vm_compute. reflexivity.
  - cbn; lia.
  - cbn; auto.
  - cbn; auto.
  - split.
    + unfold unique_ids. cbn. repeat constructor. intros [].
    + intros b [<- | []]. cbn. lia.
  - intros b [<- | []] _. vm_compute. reflexivity.
Defined.

(** * [cancel], again *)

Lemma cancelled_twice utcnow b : cancelled utcnow (cancelled utcnow b) = cancelled utcnow b.
Proof. reflexivity. Qed.

(** X9. At one reading of the clock [cancel] is idempotent: a second
    cancellation of the same id returns the same row and leaves the stored
    state of the first. *)
Theorem cancel_twice_at_one_instant (db : Database) (utcnow : datetime) (pk : Z) :
  let once := with_session (CRUDBooking.cancel utcnow pk) db no_faults in
  with_session (CRUDBooking.cancel utcnow pk) (snd once) no_faults = once.
Proof.
  intros once. subst once. rewrite (cancel_run db utcnow pk).
  destruct (find (by_id pk) (booking_table db)) as [b|] eqn:E; cbn [snd].
  - rewrite cancel_run, booking_table_with.
    rewrite find_rewrite_rows by reflexivity. rewrite E. cbn [option_map].
    rewrite rewrite_rows_compose by reflexivity.
    reflexivity.
  - rewrite cancel_run, E. reflexivity.
Qed.

(** * The ordering of start and end *)

Lemma create_booking_stored db plan booking_in out db' :
  with_session (create_booking booking_in) db plan = (out, db') ->
  db' = db
  \/ (BookingCreate.start_time booking_in < BookingCreate.end_time booking_in
      /\ db' = inserted db booking_in).
Proof.
  unfold with_session, create_booking, CRUDBooking.create,
    CRUDBooking.select_book, CRUDBooking.select_user.
  repeat split_run; run.
  all: let H := fresh in intros H; injection H as <- <-.
  all: try (left; reflexivity).
  all: match goal with
       | E : (_ >=? _) = false |- _ => rewrite Z.geb_leb in E; apply Z.leb_gt in E
       end.
  all: right; split; [assumption | reflexivity].
Qed.

Lemma perform_keeps_ordered op plan db :
  is_cancel op = false -> ordered db -> ordered (perform op plan db).
Proof.
  intros Hop Hord.
  destruct op as [booking_in | pk booking_in | utcnow pk | pk | utcnow];
    cbn [is_cancel] in Hop; try discriminate; cbn [perform].
  - destruct (with_session (create_booking booking_in) db plan) as [out db'] eqn:E.
    cbn [snd]. apply create_booking_stored in E.
    destruct E as [-> | [Hlt ->]]; [assumption|].
    intros b Hin. unfold inserted in Hin. cbn [booking_table] in Hin.
    apply in_app_or in Hin. destruct Hin as [Hin | [<- | []]]; [now apply Hord|].
    exact Hlt.
  - destruct (with_session (update_booking pk booking_in) db plan) as [out db'] eqn:E.
    cbn [snd]. apply update_booking_cases in E.
    destruct E as [[-> _] | [old [_ [Hlt [_ [-> _]]]]]]; [assumption|].
    intros b Hin. rewrite booking_table_with in Hin.
    apply in_rewrite_rows in Hin. destruct Hin as [y [Hy ->]].
    destruct (Booking.id y =? pk); [|now apply Hord].
    rewrite apply_items_payload. exact Hlt.
  - destruct (with_session (delete_booking pk) db plan) as [out db'] eqn:E.
    cbn [snd]. apply delete_booking_cases in E.
    destruct E as [-> | ->]; [assumption|].
    intros b Hin. rewrite booking_table_with in Hin. apply filter_In in Hin.
    now apply Hord.
  - destruct (with_session (update_bookings utcnow) db plan) as [out db'] eqn:E.
    cbn [snd]. apply update_bookings_cases in E.
    destruct E as [-> | ->]; [assumption|].
    intros b Hin. rewrite booking_table_with in Hin.
    apply in_map_iff in Hin. destruct Hin as [y [<- Hy]].
    destruct (listed _ y); [|now apply Hord].
    apply (Hord y Hy).
Qed.

(** X10. Creations, updates, deletions and sweeps, with storage failures
    anywhere, keep [start_time < end_time] on every stored booking. *)
Theorem ordering_along_history_without_cancel (h : History) (db : Database) :
  ordered db -> no_cancel h = true -> ordered (replay h db).
Proof.
  revert db. induction h as [|[op plan] h IH]; intros db Hord Hno; cbn [replay];
    [assumption|].
  cbn [no_cancel] in Hno. apply andb_true_iff in Hno. destruct Hno as [Hop Hrest].
  apply negb_true_iff in Hop.
  apply IH; [|assumption]. now apply perform_keeps_ordered.
Qed.

Lemma ordering_along_history_without_cancel_witness :
  ordered
    (replay [(OpCreate adjacent_request, no_faults);
             (OpUpdate 2 later_request, [None; None; None; None; None; Some "lost"%string]);
             (OpSweep 0, no_faults);
             (OpDelete 1, no_faults)] library).
Proof.
  apply ordering_along_history_without_cancel.
  - intros b [<- | []]. cbn. lia.
  - reflexivity.
Defined.

(** X11. [cancel] does not keep that ordering: cancelling a stored booking
    that starts three hours or more after the clock stores it with an
    [end_time] that is not after its [start_time]. *)
Theorem cancel_can_end_before_start (db : Database) (utcnow : datetime)
    (b : Booking.t) :
  unique_ids db ->
  In b (booking_table db) ->
  utcnow + timedelta 3 <= Booking.start_time b ->
  exists b' db',
    with_session (CRUDBooking.cancel utcnow (Booking.id b)) db no_faults
    = (Return (Some b'), db')
    /\ In b' (booking_table db')
    /\ Booking.end_time b' <= Booking.start_time b'
    /\ ~ ordered db'.
Proof.
  intros Huniq Hin Hlate.
  exists (cancelled utcnow b).
  exists (with_bookings db (rewrite_rows (Booking.id b) (cancelled utcnow) (booking_table db))).
  rewrite cancel_run, (find_by_id_unique _ _ Huniq Hin).
  assert (Hstored : In (cancelled utcnow b)
                      (rewrite_rows (Booking.id b) (cancelled utcnow) (booking_table db))).
  { unfold rewrite_rows. apply in_map_iff. exists b.
    rewrite Z.eqb_refl. auto. }
  split; [reflexivity|]. rewrite booking_table_with.
  split; [assumption|]. split; [exact Hlate|].
  intros Hord. specialize (Hord (cancelled utcnow b)).
  rewrite booking_table_with in Hord. specialize (Hord Hstored).
  unfold cancelled in Hord. cbn [Booking.start_time Booking.end_time] in Hord. lia.
Qed.

Lemma cancel_can_end_before_start_witness :
  exists b' db',
    with_session (CRUDBooking.cancel 0 1)
      (mkDatabase [Booking.mk 1 7 3 (timedelta 24) (timedelta 48) true] [7] [3] 2)
      no_faults
    = (Return (Some b'), db')
    /\ In b' (booking_table db')
    /\ Booking.end_time b' <= Booking.start_time b'
    /\ ~ ordered db'.
Proof.
  apply (cancel_can_end_before_start
           (mkDatabase [Booking.mk 1 7 3 (timedelta 24) (timedelta 48) true] [7] [3] 2)
           0 (Booking.mk 1 7 3 (timedelta 24) (timedelta 48) true)).
  - unfold unique_ids. cbn. repeat constructor. intros [].
  - cbn; auto.
  - vm_compute. discriminate.
Defined.

(** * The primary key along a history *)

Lemma perform_keeps_wf op plan db : wf db -> wf (perform op plan db).
Proof.
  intros Hwf.
  destruct op as [booking_in | pk booking_in | utcnow pk | pk | utcnow];
    cbn [perform].
  - destruct (with_session (create_booking booking_in) db plan) as [out db'] eqn:E.
    cbn [snd]. apply create_booking_cases in E.
    destruct E as [-> | [_ ->]]; [assumption | now apply wf_inserted].
  - destruct (with_session (update_booking pk booking_in) db plan) as [out db'] eqn:E.
    cbn [snd]. apply update_booking_cases in E.
    destruct E as [[-> _] | [old [_ [_ [_ [-> _]]]]]]; [assumption|].
    apply wf_map; [|assumption]. intros b.
    destruct (Booking.id b =? pk); [apply apply_items_id | reflexivity].
  - destruct (with_session (cancel_booking utcnow pk) db plan) as [out db'] eqn:E.
    cbn [snd]. apply cancel_booking_cases in E.
    destruct E as [-> | ->]; [assumption|].
    apply wf_map; [|assumption]. intros b.
    destruct (Booking.id b =? pk); reflexivity.
  - destruct (with_session (delete_booking pk) db plan) as [out db'] eqn:E.
    cbn [snd]. apply delete_booking_cases in E.
    destruct E as [-> | ->]; [assumption | now apply wf_filter].
  - destruct (with_session (update_bookings utcnow) db plan) as [out db'] eqn:E.
    cbn [snd]. apply update_bookings_cases in E.
    destruct E as [-> | ->]; [assumption|].
    apply wf_map; [|assumption]. intros b.
    destruct (listed _ b); [apply setattr_id | reflexivity].
Qed.

(** X12. Along every history of requests and sweeps, with storage failures
    anywhere, the ids of the stored bookings stay pairwise distinct and
    below the serial: no operation changes an id or gives one out twice. *)
Theorem primary_keys_along_history (h : History) (db : Database) :
  wf db -> wf (replay h db).
Proof.
  revert db. induction h as [|[op plan] h IH]; intros db Hwf; cbn [replay];
    [assumption|].
  apply IH. now apply perform_keeps_wf.
Qed.

Lemma primary_keys_along_history_witness : wf (replay busy_week library).
Proof.
  apply primary_keys_along_history. split.
  - unfold unique_ids. cbn. repeat constructor. intros [].
  - intros b [<- | []]. cbn. lia.
Defined.


(** * What the endpoints answer *)

Lemma blanket_except_answers {A} (body : Async A) (status : Z) db plan :
  answers status
    (fst (with_session (try_except body (fun e => raise (HTTPException status (str e))))
            db plan)).
Proof.
  unfold with_session. run.
  destruct (body _) as [[a|e] s]; run; cbn; auto.
Qed.

(** X13. Whatever is stored and whatever round trip fails, an endpoint that
    does not return a value raises an [HTTPException] of one fixed status:
    400 for [create_booking] and [update_booking], 500 for [read_bookings],
    [read_booking], [delete_booking] and [cancel_booking].  None of them
    lets another exception through, and none answers 404. *)
Theorem endpoints_answer_one_status (db : Database) (plan : list (option string))
    (booking_in : BookingCreate.t) (update_in : BookingUpdate.t)
    (utcnow : datetime) (booking_id skip limit : Z) :
  answers 400 (fst (with_session (create_booking booking_in) db plan))
  /\ answers 400 (fst (with_session (update_booking booking_id update_in) db plan))
  /\ answers 500 (fst (with_session (read_bookings skip limit) db plan))
  /\ answers 500 (fst (with_session (read_booking booking_id) db plan))
  /\ answers 500 (fst (with_session (delete_booking booking_id) db plan))
  /\ answers 500 (fst (with_session (cancel_booking utcnow booking_id) db plan)).
Proof.
  repeat split; apply blanket_except_answers.
Qed.

(** * Reading *)

Lemma get_multi_run db skip limit plan :
  0 <= skip -> 0 <= limit ->
  with_session (CRUDBooking.get_multi skip limit) db plan =
  match hd None plan with
  | Some msg => (Raise (Exception ("Database error occurred: " ++ msg)%string), db)
  | None =>
    (Return (firstn (Z.to_nat limit) (skipn (Z.to_nat skip) (booking_table db))), db)
  end.
Proof.
  intros Hskip Hlimit.
  unfold with_session, CRUDBooking.get_multi, CRUDBooking.select_offset_limit. run.
  destruct (hd None plan); run; [reflexivity|].
  destruct (Z.ltb_spec skip 0); [lia|].
  destruct (Z.ltb_spec limit 0); [lia|].
  run. reflexivity.
Qed.

Lemma page_unique_ids (rows : list Booking.t) n m :
  NoDup (map Booking.id rows) ->
  NoDup (map Booking.id (firstn n (skipn m rows))).
Proof.
  intros Hnd.
  assert (Hskip : NoDup (map Booking.id (skipn m rows))).
  { rewrite <- (firstn_skipn m rows), map_app in Hnd.
    now apply NoDup_app_remove_l in Hnd. }
  rewrite <- (firstn_skipn n (skipn m rows)), map_app in Hskip.
  now apply NoDup_app_remove_r in Hskip.
Qed.

Lemma page_in (rows : list Booking.t) n m b :
  In b (firstn n (skipn m rows)) -> In b rows.
Proof.
  intros Hin.
  rewrite <- (firstn_skipn m rows). apply in_or_app. right.
  rewrite <- (firstn_skipn n (skipn m rows)). apply in_or_app. now left.
Qed.

(** X14. For [skip >= 0] and [limit >= 0], [get_multi] stores nothing and
    returns [min limit (max 0 (n - skip))] of the [n] stored bookings: at
    most [limit] rows, none when [skip] reaches [n], each of them stored, and
    no booking twice. *)
Theorem get_multi_page (db : Database) (skip limit : Z) :
  0 <= skip -> 0 <= limit ->
  unique_ids db ->
  exists rows,
    with_session (CRUDBooking.get_multi skip limit) db no_faults = (Return rows, db)
    /\ Z.of_nat (List.length rows)
       = Z.min limit (Z.max 0 (Z.of_nat (List.length (booking_table db)) - skip))
    /\ (forall b, In b rows -> In b (booking_table db))
    /\ NoDup (map Booking.id rows).
Proof.
  intros Hskip Hlimit Huniq.
  exists (firstn (Z.to_nat limit) (skipn (Z.to_nat skip) (booking_table db))).
  rewrite get_multi_run by assumption. cbn [no_faults hd].
  split; [reflexivity|]. split; [|split].
  - rewrite List.length_firstn, List.length_skipn. lia.
  - intros b Hin. now apply page_in in Hin.
  - now apply page_unique_ids.
Qed.

Lemma get_multi_page_witness :
  exists rows,
    with_session (CRUDBooking.get_multi 1 2) reading_room no_faults
    = (Return rows, reading_room)
    /\ Z.of_nat (List.length rows) = 2
    /\ (forall b, In b rows -> In b (booking_table reading_room)).
Proof.
  destruct (get_multi_page reading_room 1 2) as [rows [Hrun [Hlen [Hin _]]]].
  - lia.
  - lia.
  - unfold unique_ids. cbn. repeat constructor; cbn; intuition lia.
  - exists rows. split; [exact Hrun|]. split; [|exact Hin].
    rewrite Hlen. reflexivity.
Defined.

(** X15. The reading endpoints store nothing, whatever round trip fails; a
    booking that [read_booking] returns is the stored row of that id, and
    every booking that [read_bookings] returns is stored. *)
Theorem reads_store_nothing (db : Database) (plan : list (option string))
    (booking_id skip limit : Z) :
  snd (with_session (read_booking booking_id) db plan) = db
  /\ snd (with_session (read_bookings skip limit) db plan) = db
  /\ (forall b, fst (with_session (read_booking booking_id) db plan) = Return b ->
        find (by_id booking_id) (booking_table db) = Some b)
  /\ (forall rows b,
        fst (with_session (read_bookings skip limit) db plan) = Return rows ->
        In b rows -> In b (booking_table db)).
Proof.
  unfold with_session, read_booking, read_bookings, CRUDBooking.get,
    CRUDBooking.get_multi, CRUDBooking.select_booking, CRUDBooking.select_offset_limit.
  repeat split; repeat split_run; run; try reflexivity; cbn [fst];
    try (intros; discriminate).
  - intros b H. now injection H as <-.
  - intros rows b H Hin. injection H as <-. now apply page_in in Hin.
Qed.

Lemma reads_store_nothing_witness :
  with_session (read_booking 1) library no_faults
  = (Return (Booking.mk 1 7 3 1000 1200 true), library)
  /\ find (by_id 1) (booking_table library) = Some (Booking.mk 1 7 3 1000 1200 true).
Proof.
  assert (E : with_session (read_booking 1) library no_faults
              = (Return (Booking.mk 1 7 3 1000 1200 true), library))
    by (vm_compute; reflexivity).
  split; [exact E|].
  destruct (reads_store_nothing library no_faults 1 0 10) as [_ [_ [Hrow _]]].
  apply Hrow. rewrite E. reflexivity.
Defined.
